(** * indra_curation: the curation service (curation_service/app.py)

    A shallow embedding of the Flask application: the blob store adapter
    ([_list_files], [_get_file], [_put_file]), the render cache pipeline
    ([get_json_content]), the listing endpoint ([list_names]) and the
    curation pull-through cache ([submit_curation_to_db], [get_curation],
    [get_curation_list], [update_curations]).

    Handlers are computations in a state-and-exception monad over a [World]
    that holds the module globals, the two storage backends, the relational
    store and the clock.  A raised Python exception leaves the world as it
    was at the point of the raise. *)

From Stdlib Require Import ZArith Ascii String List Permutation Sorted Lia Bool.
From stdpp Require Import base option gmap strings list fin_maps pretty.

Import ListNotations.
Set Warnings "-register-all".
Local Open Scope string_scope.
Local Open Scope Z_scope.

(** ** Python string builtins *)

Module PyStr.

(** [s.startswith(p)] *)
Definition startswith (s p : string) : bool := String.prefix p s.

(** [s.endswith(suf)]: [suf] is [s] itself or a suffix of its tail. *)
Fixpoint endswith (s suf : string) : bool :=
  if String.eqb s suf then true
  else match s with
       | EmptyString => false
       | String _ s' => endswith s' suf
       end.

(** [drop n s] is [s[n:]]. *)
Fixpoint drop (n : nat) (s : string) : string :=
  match n, s with
  | O, _ => s
  | S _, EmptyString => EmptyString
  | S k, String _ s' => drop k s'
  end.

(** [new.join(s)] padded at both ends: what [s.replace("", new)] gives. *)
Fixpoint intersperse (new s : string) : string :=
  match s with
  | EmptyString => new
  | String c s' => new +:+ String c (intersperse new s')
  end.

(** The left-to-right scan of [s.replace(old, new)] for a non-empty [old]:
    [skip] counts the characters of the current match still to be passed
    over, so that matches never overlap. *)
Fixpoint replace_scan (old new : string) (skip : nat) (s : string) : string :=
  match s with
  | EmptyString => EmptyString
  | String c s' =>
      match skip with
      | S k => replace_scan old new k s'
      | O =>
          if String.prefix old s
          then new +:+ replace_scan old new (Nat.pred (String.length old)) s'
          else String c (replace_scan old new O s')
      end
  end.

(** [s.replace(old, new)]: every non-overlapping occurrence, leftmost first. *)
Definition replace (s old new : string) : string :=
  match old with
  | EmptyString => intersperse new s
  | _ => replace_scan old new O s
  end.

(** [c in s] for a single character. *)
Fixpoint contains_char (c : ascii) (s : string) : bool :=
  match s with
  | EmptyString => false
  | String d s' => if Ascii.eqb c d then true else contains_char c s'
  end.

End PyStr.

(** ** Selecting the artifact (the scan of [get_json_content], l.132-141) *)

Module Select.
Import PyStr.

(** The [for option in _list_files(name)] loop.  [file_path] is the loop
    variable of the same name; the second component is [is_json], which is
    only set on the branch that leaves the loop. *)
Fixpoint select_file (regenerate : bool) (options : list string)
         (file_path : option string) : option string * bool :=
  match options with
  | [] => (file_path, false)
  | option :: rest =>
      if endswith option ".json" && negb regenerate
      then (Some option, true)
      else if endswith option ".pkl"
           then select_file regenerate rest (Some option)
           else select_file regenerate rest file_path
  end.

Definition is_json (option : string) : bool := endswith option ".json".
Definition is_pkl (option : string) : bool := endswith option ".pkl".

(** The last element of [l] that satisfies [f]. *)
Definition find_last {A} (f : A -> bool) (l : list A) : option A :=
  List.find f (List.rev l).

(** The selection rule in the words of the specification: a rendered
    artifact when there is one and regeneration is not forced, otherwise
    the first raw candidate in scan order. *)
Definition first_match_rule (regenerate : bool) (options : list string)
  : option string * bool :=
  match (if regenerate then None else List.find is_json options) with
  | Some j => (Some j, true)
  | None => (List.find is_pkl options, false)
  end.

End Select.

(** ** Python values and exceptions *)

(** The values that travel through [request.json], the cache entries and the
    rendered document.  [JDate] is a [datetime], counted in microseconds. *)
Inductive Json :=
| JNull
| JBool (b : bool)
| JInt (z : Z)
| JStr (s : string)
| JDate (t : Z)
| JList (l : list Json)
| JDict (d : gmap string Json).

(** [None] of an optional string global, as a value. *)
Definition JOptStr (o : option string) : Json :=
  match o with Some s => JStr s | None => JNull end.

Inductive exn :=
| HTTPException (status : Z) (body : string)   (* flask.abort *)
| AssertionError (msg : string)
| TypeError
| ValueError
| FileNotFoundError (file_path : string)       (* open() *)
| NoSuchKey (bucket key : string)               (* s3.get_object *)
| UnpicklingError
| JSONDecodeError
| CollaboratorError (who : string).             (* raised inside INDRA or json *)

Inductive Res (A : Type) :=
| Ok (a : A)
| Raise (e : exn).
Arguments Ok {A} a.
Arguments Raise {A} e.

(** What a view function hands back to Flask. *)
Inductive Response :=
| jsonify (body : Json)
| render_template (template : string).

(** One row of the [Curation] table of the relational store. *)
Record Curation := {
  cur_id : Json;
  cur_pa_hash : Z;
  cur_source_hash : Z;
  cur_tag : Json;
  cur_text : Json;
  cur_curator : Json;
  cur_source : Json;
  cur_ip : Json;
  cur_date : Json
}.

(** The outcome of [indra_db.client.submit_curation]. *)
Inductive SubmitOutcome :=
| Stored (dbid : Z)
| BadHashError (mk_hash : Z).

(** The calls whose number the service is accountable for. *)
Inductive event :=
| Unpickled                      (* pickle.loads *)
| PutFile (file_path : string)   (* _put_file *)
| SelectedAll                    (* db.select_all(db.Curation) *)
| Submitted (pa_hash source_hash : Z).

(** How a write that the backend does not carry out ends.  [Refused]:
    [open()] or [s3.put_object] raises and nothing is written.  [Torn]:
    [open(file_path, 'w')] has truncated the local file and the write
    raises, leaving [partial] in the file. *)
Inductive PutFault :=
| Refused (e : exn)
| Torn (partial : string) (e : exn).

Record Request := {
  args : gmap string string;     (* request.args *)
  json : gmap string Json;       (* request.json *)
  remote_addr : string;
  url_root : string
}.

(** ** The external collaborators

    INDRA's statement class and HTML assembler, [pickle], [json], the
    builtin [int] on strings and the INDRA database client are not part of
    this repository; the service is verified against their interface. *)
Class Collaborators := {
  Statement : Type;
  Evidence : Type;
  evidence : Statement -> list Evidence;
  get_hash : Statement -> Z;
  pickle_loads : string -> option (list Statement);
  json_loads : string -> option Json;
  json_dumps : Json -> option string;            (* json.dumps(_, indent=2) *)
  _format_evidence_text :
    Statement -> gmap (Z * Z) (list (gmap string Json)) -> option Json;
  _format_stmt_text : Statement -> option Json;
  (** [HtmlAssembler(stmts, title, db_rest_url, curation_dict)
      .make_json_model().items()] *)
  make_json_model :
    list Statement -> string -> gmap (Z * Z) (list (gmap string Json)) ->
    option (list (Json * gmap string Json));
  int_of_str : string -> option Z;               (* int(s) for a str *)
  DB : Type;
  select_all : DB -> list Curation;
  submit_curation :
    Z -> Json -> option string -> string -> Json -> Z -> option string ->
    DB -> SubmitOutcome * DB
}.

(** ** The monad of view functions

    A computation reads and writes a state and either returns or raises;
    the state it leaves behind is kept in both cases. *)

Definition M (W A : Type) : Type := W -> Res A * W.

Definition ret {W A} (a : A) : M W A := fun w => (Ok a, w).
Definition raise {W A} (e : exn) : M W A := fun w => (Raise e, w).
Definition bind {W A B} (m : M W A) (k : A -> M W B) : M W B :=
  fun w => match m w with
           | (Ok a, w') => k a w'
           | (Raise e, w') => (Raise e, w')
           end.

Declare Scope py_scope.
Delimit Scope py_scope with py.
Notation "'do' x <- m ; k" := (bind m (fun x => k))
  (at level 10, x name, m at level 100, k at level 200,
   format "'[v' 'do'  x  <-  m ; '/' k ']'") : py_scope.
Notation "m ;; k" := (bind m (fun _ => k))
  (at level 100, k at level 200, right associativity) : py_scope.
Local Open Scope py_scope.

Definition get {W A} (f : W -> A) : M W A := fun w => (Ok (f w), w).
Definition modify {W} (f : W -> W) : M W unit := fun w => (Ok tt, f w).

(** A pure step that returns or raises. *)
Definition result {W A} (r : Res A) : M W A := fun w => (r, w).

(** Lift a collaborator that signals failure by [None]. *)
Definition lift {W A} (e : exn) (o : option A) : M W A :=
  match o with Some a => ret a | None => raise e end.

(** [[f(x) for x in l]] where [f] may raise. *)
Fixpoint for_each {W A B} (f : A -> M W B) (l : list A) : M W (list B) :=
  match l with
  | [] => ret []
  | x :: l' => do y <- f x; do ys <- for_each f l'; ret (y :: ys)
  end.

(** [abort(status, body)] and [abort(Response(body, status))]. *)
Definition abort {W A} (status : Z) (body : string) : M W A :=
  raise (HTTPException status body).

(** How often an event occurs in a trace. *)
Definition occurrences (p : event -> bool) (t : list event) : nat :=
  length (List.filter p t).

Definition is_select_all (e : event) : bool :=
  match e with SelectedAll => true | _ => false end.
Definition is_unpickle (e : event) : bool :=
  match e with Unpickled => true | _ => false end.
Definition is_put (e : event) : bool :=
  match e with PutFile _ => true | _ => false end.

(** ** The world *)

Section Service.
Context `{Collaborators}.

(** A cache entry is a Python dict; the cache maps [(pa_hash, source_hash)]
    to the list of entries of that pair.

    Both storage backends are flat stores kept in listing order.  An S3
    object is a bucket, a key and a body.  A local file is a path and its
    content; it shows in [listdir d] when its path is [d] joined with a
    name free of '/'.  [dirs] holds the directories that exist, as they are
    spelled, and [faults] tells for each location whether a write there
    goes through.  The normalisation of paths and the paging of
    [list_objects_v2] are not modelled. *)
Abbreviation Entry := (gmap string Json).
Abbreviation Cache := (gmap (Z * Z) (list (gmap string Json))).

Record World := {
  WORKING_DIR : option string;
  CURATION_TAG : option string;
  CURATOR_EMAIL : option string;
  last_updated : option Z;              (* CURATIONS['last_updated'] *)
  cache : Cache;                        (* CURATIONS['cache'] *)
  s3 : list (string * string * string); (* bucket, key, body; listing order *)
  fs : list (string * string);          (* path, content; listdir order *)
  dirs : list string;                   (* the local directories that exist *)
  faults : string -> option PutFault;   (* the writes that fail, and how *)
  db : DB;
  clock : nat -> Z;                     (* the successive clock readings *)
  ticks : nat;                          (* readings taken so far *)
  trace : list event                    (* newest first *)
}.

Definition set_cache (c : Cache) (w : World) : World :=
  {| WORKING_DIR := WORKING_DIR w; CURATION_TAG := CURATION_TAG w;
     CURATOR_EMAIL := CURATOR_EMAIL w; last_updated := last_updated w;
     cache := c; s3 := s3 w; fs := fs w; dirs := dirs w;
     faults := faults w; db := db w; clock := clock w;
     ticks := ticks w; trace := trace w |}.

Definition set_last_updated (t : option Z) (w : World) : World :=
  {| WORKING_DIR := WORKING_DIR w; CURATION_TAG := CURATION_TAG w;
     CURATOR_EMAIL := CURATOR_EMAIL w; last_updated := t;
     cache := cache w; s3 := s3 w; fs := fs w; dirs := dirs w;
     faults := faults w; db := db w; clock := clock w;
     ticks := ticks w; trace := trace w |}.

Definition set_s3 (o : list (string * string * string)) (w : World) : World :=
  {| WORKING_DIR := WORKING_DIR w; CURATION_TAG := CURATION_TAG w;
     CURATOR_EMAIL := CURATOR_EMAIL w; last_updated := last_updated w;
     cache := cache w; s3 := o; fs := fs w; dirs := dirs w;
     faults := faults w; db := db w; clock := clock w;
     ticks := ticks w; trace := trace w |}.

Definition set_fs (f : list (string * string)) (w : World) : World :=
  {| WORKING_DIR := WORKING_DIR w; CURATION_TAG := CURATION_TAG w;
     CURATOR_EMAIL := CURATOR_EMAIL w; last_updated := last_updated w;
     cache := cache w; s3 := s3 w; fs := f; dirs := dirs w;
     faults := faults w; db := db w; clock := clock w;
     ticks := ticks w; trace := trace w |}.

Definition set_db (d : DB) (w : World) : World :=
  {| WORKING_DIR := WORKING_DIR w; CURATION_TAG := CURATION_TAG w;
     CURATOR_EMAIL := CURATOR_EMAIL w; last_updated := last_updated w;
     cache := cache w; s3 := s3 w; fs := fs w; dirs := dirs w;
     faults := faults w; db := d; clock := clock w; ticks := ticks w;
     trace := trace w |}.

Definition set_ticks (n : nat) (w : World) : World :=
  {| WORKING_DIR := WORKING_DIR w; CURATION_TAG := CURATION_TAG w;
     CURATOR_EMAIL := CURATOR_EMAIL w; last_updated := last_updated w;
     cache := cache w; s3 := s3 w; fs := fs w; dirs := dirs w;
     faults := faults w; db := db w; clock := clock w; ticks := n;
     trace := trace w |}.

Definition set_trace (t : list event) (w : World) : World :=
  {| WORKING_DIR := WORKING_DIR w; CURATION_TAG := CURATION_TAG w;
     CURATOR_EMAIL := CURATOR_EMAIL w; last_updated := last_updated w;
     cache := cache w; s3 := s3 w; fs := fs w; dirs := dirs w;
     faults := faults w; db := db w; clock := clock w;
     ticks := ticks w; trace := t |}.

Definition emit (e : event) : M World unit :=
  modify (fun w => set_trace (e :: trace w) w).

(** [datetime.now()]: the next reading of the clock, in microseconds. *)
Definition datetime_now : M World Z :=
  fun w => (Ok (clock w (ticks w)), set_ticks (S (ticks w)) w).

(** ** Blob store adapter *)

(** [s3_path_patt = re.compile('^s3:([-a-zA-Z0-9_]+)/(.*?)$')] *)
Definition is_bucket_char (c : ascii) : bool :=
  let n := nat_of_ascii c in
  (Ascii.eqb c "-" || ((97 <=? n) && (n <=? 122)) || ((65 <=? n) && (n <=? 90))
   || ((48 <=? n) && (n <=? 57)) || Ascii.eqb c "_")%nat.

(** The longest run of bucket characters at the head of [s], and the rest. *)
Fixpoint span_bucket (s : string) : string * string :=
  match s with
  | EmptyString => (EmptyString, EmptyString)
  | String c s' =>
      if is_bucket_char c
      then let '(b, r) := span_bucket s' in (String c b, r)
      else (EmptyString, s)
  end.

(** [(.*?)$]: the dot does not match a newline, and [$] matches at the end
    of the string or just before a newline that ends it. *)
Fixpoint dot_star_to_end (s : string) : option string :=
  match s with
  | EmptyString => Some EmptyString
  | String c s' =>
      if Ascii.eqb c "010"
      then (if String.eqb s' "" then Some EmptyString else None)
      else option_map (String c) (dot_star_to_end s')
  end.

(** [s3_path_patt.match(s)] with [m.groups()]. *)
Definition s3_path_patt_match (s : string) : option (string * string) :=
  if String.prefix "s3:" s then
    match span_bucket (PyStr.drop 3 s) with
    | (EmptyString, _) => None
    | (bucket, String "/" rest) => option_map (pair bucket) (dot_star_to_end rest)
    | _ => None
    end
  else None.

(** First binding of a key in a store kept in listing order. *)
Fixpoint assoc_get {K V} `{EqDecision K} (k : K) (l : list (K * V)) : option V :=
  match l with
  | [] => None
  | (k', v) :: l' => if decide (k = k') then Some v else assoc_get k l'
  end.

(** Overwrite in place, or add at the end. *)
Fixpoint assoc_put {K V} `{EqDecision K} (k : K) (v : V) (l : list (K * V))
  : list (K * V) :=
  match l with
  | [] => [(k, v)]
  | (k', v') :: l' =>
      if decide (k = k') then (k, v) :: l' else (k', v') :: assoc_put k v l'
  end.

(** [s3.list_objects_v2(Bucket=bucket, Prefix=prefix)['Contents']] keys,
    in the order in which the world holds the objects and as one page: the
    order of the service's listing and its limit of 1000 keys are not
    modelled. *)
Definition list_objects_v2 (bucket prefix : string)
           (objs : list (string * string * string)) : list string :=
  omap (fun o => let '(b, k, _) := o in
                 if String.eqb b bucket && PyStr.startswith k prefix
                 then Some k else None) objs.

(** [os.path.join(a, b)] *)
Definition path_join (a b : string) : string :=
  if PyStr.startswith b "/" then b
  else if String.eqb a "" || PyStr.endswith a "/" then a +:+ b
  else a +:+ "/" +:+ b.

(** The name under which the file at [p] shows in [listdir(d)], if it
    lies directly in [d]. *)
Definition entry_name (d p : string) : option string :=
  let dp := if PyStr.endswith d "/" then d else d +:+ "/" in
  if PyStr.startswith p dp then
    let fn := PyStr.drop (String.length dp) p in
    if String.eqb fn "" || PyStr.contains_char "/" fn then None else Some fn
  else None.

(** [os.listdir(d)]: raises for the empty path and for a directory that
    does not exist. *)
Definition listdir (d : string) : M World (list string) :=
  if String.eqb d "" then raise (FileNotFoundError d)
  else
    do existing <- get dirs;
    if existsb (String.eqb d) existing
    then do files <- get fs; ret (omap (fun f => entry_name d (fst f)) files)
    else raise (FileNotFoundError d).

(** [_list_files(name)] *)
Definition _list_files (name : string) : M World (list string) :=
  do wd <- get WORKING_DIR;
  match wd with
  | None => raise TypeError
  | Some wd =>
      match s3_path_patt_match wd with
      | Some (bucket, prefix) =>
          let prefix := prefix +:+ name in
          do objs <- get s3;
          match list_objects_v2 bucket prefix objs with
          | [] => ret []
          | keys => ret (List.map (fun k => "s3:" +:+ bucket +:+ "/" +:+ k) keys)
          end
      | None =>
          do fns <- listdir wd;
          ret (List.map (path_join wd)
                        (List.filter (fun fn => PyStr.startswith fn name) fns))
      end
  end.

(** [_get_file(file_path)] *)
Definition _get_file (file_path : string) : M World string :=
  match s3_path_patt_match file_path with
  | Some (bucket, key) =>
      do objs <- get s3;
      lift (NoSuchKey bucket key) (assoc_get (bucket, key) objs)
  | None =>
      do files <- get fs;
      lift (FileNotFoundError file_path) (assoc_get file_path files)
  end.

(** [_put_file(file_path, content)].  The call is recorded, then the
    backend decides.  [s3.put_object] either stores the body or raises and
    stores nothing.  Locally [open(file_path, 'w')] raises for the empty
    path and where the backend refuses; once it has opened the file, the
    file is truncated, and a write that then fails leaves it torn. *)
Definition _put_file (file_path content : string) : M World unit :=
  emit (PutFile file_path);;
  do fault <- get (fun w => faults w file_path);
  match s3_path_patt_match file_path with
  | Some (bucket, key) =>
      match fault with
      | Some (Refused e) | Some (Torn _ e) => raise e
      | None =>
          modify (fun w => set_s3 (assoc_put (bucket, key) content (s3 w)) w)
      end
  | None =>
      if String.eqb file_path "" then raise (FileNotFoundError file_path)
      else
        match fault with
        | Some (Refused e) => raise e
        | Some (Torn partial e) =>
            modify (fun w => set_fs (assoc_put file_path partial (fs w)) w);;
            raise e
        | None =>
            modify (fun w => set_fs (assoc_put file_path content (fs w)) w)
        end
  end.

(** [assert WORKING_DIR is not None, "WORKING_DIR is not defined."] *)
Definition assert_working_dir : M World string :=
  do wd <- get WORKING_DIR;
  lift (AssertionError "WORKING_DIR is not defined.") wd.

(** ** Listing and rendering *)

(** The body of the two loops of [list_names]: the logical names one
    candidate contributes. *)
Definition add_option (wd : string) (options : gset string) (option : string)
  : gset string :=
  foldl (fun acc ending =>
           if PyStr.endswith option ending
           then {[ PyStr.replace (PyStr.replace option ending "") wd "" ]} ∪ acc
           else acc)
        options [".html"; ".pkl"].

(** [GET /list] *)
Definition list_names : M World (option Response) :=
  do wd <- assert_working_dir;
  do candidates <- _list_files "";
  let options := foldl (add_option wd) ∅ candidates in
  ret (Some (jsonify (JList (JStr <$> elements options)))).

(** [GET /] and [GET /json] *)
Definition get_nice_interface : M World (option Response) :=
  ret (Some (render_template "curation_service/fresh_stmts_view.html")).

(** The sort key [(len(s.evidence), s.get_hash())], compared as tuples. *)
Definition sort_key (s : Statement) : nat * Z :=
  (length (evidence s), get_hash s).

Definition key_ltb (a b : nat * Z) : bool :=
  (fst a <? fst b)%nat || ((fst a =? fst b)%nat && (snd a <? snd b)).

(** [sorted(stmts, key=..., reverse=True)]: a stable sort, largest key
    first; statements with equal keys keep their order. *)
Fixpoint insert_desc (x : Statement) (l : list Statement) : list Statement :=
  match l with
  | [] => [x]
  | y :: l' =>
      if key_ltb (sort_key x) (sort_key y) then y :: insert_desc x l'
      else x :: y :: l'
  end.

Definition sorted_reverse (stmts : list Statement) : list Statement :=
  List.fold_right insert_desc [] stmts.

(** [x] is not after [y] in the order (evidence count, hash) descending. *)
Definition key_ge (x y : Statement) : Prop :=
  (length (evidence y) < length (evidence x))%nat \/
  (length (evidence y) = length (evidence x) /\ get_hash y <= get_hash x).

(** [v] is the StatementView of [s]: a dict with the evidence count, the
    hash as a string and the unset source count of [s]. *)
Definition view_of (v : Json) (s : Statement) : Prop :=
  exists d, v = JDict d /\
    d !! "evidence_count" = Some (JInt (Z.of_nat (length (evidence s)))) /\
    d !! "hash" = Some (JStr (pretty (get_hash s))) /\
    d !! "source_count" = Some JNull.

(** The [stmt_dict] of one statement in ungrouped mode. *)
Definition stmt_dict (stmt : Statement) : M World Json :=
  do c <- get cache;
  do ev <- lift (CollaboratorError "_format_evidence_text")
                (_format_evidence_text stmt c);
  do en <- lift (CollaboratorError "_format_stmt_text")
                (_format_stmt_text stmt);
  ret (JDict (<["evidence" := ev]>
             (<["english" := en]>
             (<["evidence_count" := JInt (Z.of_nat (length (evidence stmt)))]>
             (<["hash" := JStr (pretty (get_hash stmt))]>
             (<["source_count" := JNull]> ∅)))))).

(** [s[:-1]] *)
Fixpoint drop_last (s : string) : string :=
  match s with
  | EmptyString => EmptyString
  | String c EmptyString => EmptyString
  | String c s' => String c (drop_last s')
  end.

(** The list [result['stmts']] built from the unpickled statements. *)
Definition render_stmts (req : Request) (grouped : bool)
           (stmts : list Statement) : M World (list Json) :=
  if grouped then
    do c <- get cache;
    do items <- lift (CollaboratorError "HtmlAssembler")
                     (make_json_model stmts (drop_last (url_root req)) c);
    ret (List.map (fun kv => JDict (<["key" := fst kv]> (snd kv))) items)
  else
    for_each stmt_dict (sorted_reverse stmts).

Definition rendered_document (grouped : bool) (views : list Json) : Json :=
  JDict (<["stmts" := JList views]> (<["grouped" := JBool grouped]> ∅)).

Definition arg_is_true (req : Request) (k : string) : bool :=
  String.eqb (default "false" (args req !! k)) "true".

Definition invalid_name (name wd : string) : string :=
  "Invalid name: neither " +:+ name +:+ ".pkl nor " +:+ name +:+
  ".json exists in " +:+ wd +:+
  ". If using s3 directory, remember to add the '/' to the end for your working directory.".

(** The second half of [get_json_content]: unpickle, build the document,
    save it next to the raw artifact and return it. *)
Definition render_and_store (req : Request) (grouped : bool)
           (file_path raw_content : string) : M World (option Response) :=
  emit Unpickled;;
  do stmts <- lift UnpicklingError (pickle_loads raw_content);
  do views <- render_stmts req grouped stmts;
  let result := rendered_document grouped views in
  let json_file_path := PyStr.replace file_path ".pkl" ".json" in
  do content <- lift (CollaboratorError "json.dumps") (json_dumps result);
  _put_file json_file_path content;;
  ret (Some (jsonify result)).

(** [GET /json/<name>] *)
Definition get_json_content (req : Request) (name : string)
  : M World (option Response) :=
  do wd <- assert_working_dir;
  let regenerate := arg_is_true req "regen" in
  let grouped := arg_is_true req "grouped" in
  do candidates <- _list_files name;
  match Select.select_file regenerate candidates None with
  | (None, _) => abort 400 (invalid_name name wd)
  | (Some file_path, is_json) =>
      do raw_content <- _get_file file_path;
      if is_json then
        do doc <- lift JSONDecodeError (json_loads raw_content);
        ret (Some (jsonify doc))
      else
        render_and_store req grouped file_path raw_content
  end.

(** The logical name that [list_names] gives to a candidate with the
    given ending. *)
Definition logical_name (wd option ending : string) : string :=
  PyStr.replace (PyStr.replace option ending "") wd "".

(** [name] is what [list_names] derives from the candidate [option]. *)
Definition derives (wd option name : string) : Prop :=
  exists ending,
    ending ∈ [".html"; ".pkl"] /\
    PyStr.endswith option ending = true /\
    name = logical_name wd option ending.

(** Two worlds with the same stored artifacts and the same number of
    writes behind them. *)
Definition same_store (w w' : World) : Prop :=
  s3 w' = s3 w /\ fs w' = fs w /\
  occurrences is_put (trace w') = occurrences is_put (trace w).

(** ** Curation pull-through cache *)

(** [if key not in c: c[key] = []] then [c[key].append(entry)] *)
Definition cache_append (key : Z * Z) (entry : Entry) (c : Cache) : Cache :=
  let c := match c !! key with Some _ => c | None => <[key := []]> c end in
  alter (fun l => (l ++ [entry])%list) key c.

(** The [cur_dict] that [update_curations] builds from one row. *)
Definition cur_dict (cur : Curation) : Entry :=
  <["source_hash" := JInt (cur_source_hash cur)]>
  (<["stmt_hash" := JInt (cur_pa_hash cur)]>
  (<["id" := cur_id cur]>
  (<["date" := cur_date cur]>
  (<["ip" := cur_ip cur]>
  (<["source" := cur_source cur]>
  (<["email" := cur_curator cur]>
  (<["comment" := cur_text cur]>
  (<["error_type" := cur_tag cur]> ∅)))))))).

(** The [for curation in curations] loop of [update_curations]. *)
Definition load_curations (curations : list Curation) (c : Cache) : Cache :=
  foldl (fun c cur =>
           cache_append (cur_pa_hash cur, cur_source_hash cur) (cur_dict cur) c)
        c curations.

(** [update_curations()]: the refresh. *)
Definition update_curations : M World unit :=
  modify (set_cache ∅);;
  do d <- get db;
  emit SelectedAll;;
  let curations := select_all d in
  modify (fun w => set_cache (load_curations curations (cache w)) w);;
  do now <- datetime_now;
  modify (set_last_updated (Some now)).

(** [int(v)] for a value of the request body. *)
Definition py_int (v : Json) : Res Z :=
  match v with
  | JInt z => Ok z
  | JBool b => Ok (if b then 1 else 0)
  | JStr s => match int_of_str s with Some z => Ok z | None => Raise ValueError end
  | _ => Raise TypeError
  end.

(** The record that a successful submission adds to the cache:
    [dict(request.json)] updated with the five local fields. *)
Definition local_entry (req : Request) (dbid : Z) (source_api email : option string)
           (now : Z) : Entry :=
  <["date" := JDate now]>
  (<["source" := JOptStr source_api]>
  (<["email" := JOptStr email]>
  (<["ip" := JStr (remote_addr req)]>
  (<["id" := JInt dbid]> (json req))))).

Definition success (dbid : Z) : Response :=
  jsonify (JDict (<["result" := JStr "success"]>
                 (<["ref" := JDict (<["id" := JInt dbid]> ∅)]> ∅))).

(** [request.json.get(k)] *)
Definition json_get (req : Request) (k : string) : Json :=
  default JNull (json req !! k).

(** [POST /curations/submit] *)
Definition submit_curation_to_db (req : Request) : M World (option Response) :=
  do pa_hash <- result (py_int (json_get req "stmt_hash"));
  do source_hash <- result (py_int (json_get req "source_hash"));
  let text := json_get req "comment" in
  let tag := json_get req "error_type" in
  do source_api <- get CURATION_TAG;
  let ip := remote_addr req in
  do email <- get CURATOR_EMAIL;
  do d <- get db;
  emit (Submitted pa_hash source_hash);;
  let outcome := submit_curation pa_hash tag email ip text source_hash source_api d in
  modify (set_db (snd outcome));;
  match fst outcome with
  | BadHashError mk_hash =>
      abort 400 ("Invalid hash: " +:+ pretty mk_hash +:+ ".")
  | Stored dbid =>
      let key := (pa_hash, source_hash) in
      do now <- datetime_now;
      let entry := local_entry req dbid source_api email now in
      modify (fun w => set_cache (cache_append key entry (cache w)) w);;
      ret (Some (success dbid))
  end.

(** One hour, in microseconds: [total_seconds() > 3600] compares a
    microsecond count divided by [10**6], and the quotient exceeds 3600
    exactly when the count exceeds this bound. *)
Definition one_hour : Z := 3600 * 1000000.

(** The staleness check that opens both readers. *)
Definition refresh_if_stale : M World unit :=
  do now <- datetime_now;
  do lu <- get last_updated;
  match lu with
  | None => raise TypeError
  | Some t => if one_hour <? now - t then update_curations else ret tt
  end.

(** The answer of [get_curation], after the staleness check. *)
Definition relevant_curations (stmt_hash ev_hash : string)
  : M World (option Response) :=
  do a <- lift ValueError (int_of_str stmt_hash);
  do b <- lift ValueError (int_of_str ev_hash);
  do c <- get cache;
  ret (Some (jsonify (JList (JDict <$> default [] (c !! (a, b)))))).

(** [GET /curations/<stmt_hash>/<ev_hash>] *)
Definition get_curation (stmt_hash ev_hash : string) : M World (option Response) :=
  refresh_if_stale;;
  relevant_curations stmt_hash ev_hash.

(** The answer of [get_curation_list], after the staleness check.  The
    items come in the order of [map_to_list], not in insertion order. *)
Definition all_curations : M World (option Response) :=
  do c <- get cache;
  ret (Some (jsonify (JList (
    (fun kv => JDict (<["key" := JList [JStr (pretty (fst (fst kv)));
                                        JStr (pretty (snd (fst kv)))]]>
                      (<["value" := JList (JDict <$> snd kv)]> ∅)))
    <$> map_to_list c)))).

(** [GET /curations] *)
Definition get_curation_list : M World (option Response) :=
  refresh_if_stale;;
  all_curations.

(** The world after one reading of the clock. *)
Definition tick (w : World) : World := set_ticks (S (ticks w)) w.

(** The number of refreshes a computation performs from [w]: the
    [select_all] queries it adds to the trace. *)
Definition refreshes {A} (m : M World A) (w : World) : nat :=
  (occurrences is_select_all (trace (snd (m w)))
   - occurrences is_select_all (trace w))%nat.

(** [POST /curations/update_cache]: the function body ends without a
    [return], so the view hands [None] to Flask. *)
Definition update_curations_endpoint : M World (option Response) :=
  update_curations;;
  ret None.

(** The [__main__] block, up to [app.run]. *)
Definition startup (working_dir tag email : string) : M World unit :=
  modify (fun w =>
    {| WORKING_DIR := Some working_dir; CURATION_TAG := Some tag;
       CURATOR_EMAIL := Some email; last_updated := last_updated w;
       cache := cache w; s3 := s3 w; fs := fs w; dirs := dirs w;
       faults := faults w; db := db w; clock := clock w;
       ticks := ticks w; trace := trace w |});;
  update_curations.

End Service.

(** ** A concrete set of collaborators

    A small database of three statements, a decimal [int], and a store that
    accepts curations for the statement hashes it knows.  The examples and
    the counterexamples below run the service against it. *)

Module Sample.

Record stmt := { s_evidence : list string; s_hash : Z }.

Definition stmt_a : stmt := {| s_evidence := ["e1"; "e2"; "e3"]; s_hash := 10 |}.
Definition stmt_b : stmt := {| s_evidence := ["e4"]; s_hash := 5 |}.
Definition stmt_c : stmt := {| s_evidence := ["e5"; "e6"; "e7"]; s_hash := 20 |}.

Definition three_stmts : list stmt := [stmt_a; stmt_b; stmt_c].

Definition unpickle (raw : string) : option (list stmt) :=
  if String.eqb raw "pickle:three" then Some three_stmts
  else if String.eqb raw "pickle:none" then Some []
  else None.

(** Documents are stored under a one-line tag that records the mode. *)
Definition dumps (doc : Json) : option string :=
  match doc with
  | JDict d =>
      match d !! "grouped" with
      | Some (JBool true) => Some "json:grouped"
      | Some (JBool false) => Some "json:flat"
      | _ => None
      end
  | _ => None
  end.

Definition loads (raw : string) : option Json :=
  if String.prefix "json:" raw then Some (JStr raw) else None.

Definition digit (c : ascii) : option Z :=
  let n := nat_of_ascii c in
  if ((48 <=? n) && (n <=? 57))%nat then Some (Z.of_nat n - 48) else None.

Fixpoint digits (acc : Z) (s : string) : option Z :=
  match s with
  | EmptyString => Some acc
  | String c s' =>
      match digit c with
      | Some d => digits (10 * acc + d) s'
      | None => None
      end
  end.

Definition parse_int (s : string) : option Z :=
  match s with
  | EmptyString => None
  | String "-" (String c s') => Z.opp <$> digits 0 (String c s')
  | _ => digits 0 s
  end.

Record store := { known : list Z; rows : list Curation }.

Definition submit (pa_hash : Z) (tag : Json) (email : option string)
           (ip : string) (text : Json) (source_hash : Z)
           (source_api : option string) (d : store) : SubmitOutcome * store :=
  if existsb (Z.eqb pa_hash) (known d) then
    let dbid := Z.of_nat (S (length (rows d))) in
    (Stored dbid,
     {| known := known d;
        rows := rows d ++
                [ {| cur_id := JInt dbid; cur_pa_hash := pa_hash;
                     cur_source_hash := source_hash; cur_tag := tag;
                     cur_text := text; cur_curator := JOptStr email;
                     cur_source := JOptStr source_api; cur_ip := JStr ip;
                     cur_date := JNull |} ] |})
  else (BadHashError pa_hash, d).

#[export] Instance collaborators : Collaborators := {|
  Statement := stmt;
  Evidence := string;
  evidence := s_evidence;
  get_hash := s_hash;
  pickle_loads := unpickle;
  json_loads := loads;
  json_dumps := dumps;
  _format_evidence_text := fun s _ => Some (JList (JStr <$> s_evidence s));
  _format_stmt_text := fun s => Some (JStr ("statement " +:+ pretty (s_hash s)));
  make_json_model := fun stmts _ _ =>
    Some ((fun s => (JStr (pretty (s_hash s)),
                     {[ "count" := JInt (Z.of_nat (length (s_evidence s))) ]})) <$> stmts);
  int_of_str := parse_int;
  DB := store;
  select_all := rows;
  submit_curation := submit
|}.

(** A world whose working root is the local directory [d/]; every write
    goes through. *)
Definition local_world (files : list (string * string))
           (loaded : option Z) (now : Z) : World :=
  {| WORKING_DIR := Some "d/"; CURATION_TAG := Some "demo";
     CURATOR_EMAIL := Some "curator@example.org";
     last_updated := loaded; cache := ∅; s3 := []; fs := files;
     dirs := ["d/"]; faults := fun _ => None;
     db := {| known := [111]; rows := [] |};
     clock := fun n => now + Z.of_nat n; ticks := O; trace := [] |}.

(** A world whose working root is the prefix [root] of bucket [b]. *)
Definition s3_world (root : string) (objects : list (string * string))
  : World :=
  {| WORKING_DIR := Some ("s3:b/" +:+ root); CURATION_TAG := Some "demo";
     CURATOR_EMAIL := Some "curator@example.org";
     last_updated := Some 0; cache := ∅;
     s3 := (fun o => ("b", fst o, snd o)) <$> objects; fs := [];
     dirs := []; faults := fun _ => None;
     db := {| known := [111]; rows := [] |};
     clock := fun n => Z.of_nat n; ticks := O; trace := [] |}.

(** A world whose working root is the local directory [run.pkl/], the
    only directory there is: a write under [run.json/] is refused. *)
Definition missing_dir_world : World :=
  {| WORKING_DIR := Some "run.pkl/"; CURATION_TAG := Some "demo";
     CURATOR_EMAIL := Some "curator@example.org";
     last_updated := Some 0; cache := ∅; s3 := [];
     fs := [("run.pkl/x.pkl", "pickle:three")];
     dirs := ["run.pkl/"];
     faults := fun p => if PyStr.startswith p "run.json/"
                        then Some (Refused (FileNotFoundError p)) else None;
     db := {| known := [111]; rows := [] |};
     clock := fun n => Z.of_nat n; ticks := O; trace := [] |}.

Definition request (regen grouped : bool) : Request :=
  {| args := <["regen" := if regen then "true" else "false"]>
             (<["grouped" := if grouped then "true" else "false"]> ∅);
     json := ∅; remote_addr := "127.0.0.1"; url_root := "http://localhost/" |}.

Definition submission (stmt_hash source_hash : Z) : Request :=
  {| args := ∅;
     json := <["stmt_hash" := JInt stmt_hash]>
             (<["source_hash" := JInt source_hash]>
             (<["comment" := JStr "wrong agent"]>
             (<["error_type" := JStr "grounding"]> ∅)));
     remote_addr := "127.0.0.1"; url_root := "http://localhost/" |}.

End Sample.

(** ** Notions used to state the properties *)

(** Every character of [s] satisfies [p]. *)
Fixpoint all_chars (p : ascii -> bool) (s : string) : bool :=
  match s with
  | EmptyString => true
  | String c s' => p c && all_chars p s'
  end.

(** [s] holds no line feed. *)
Definition no_newline (s : string) : bool :=
  negb (PyStr.contains_char "010" s).

(** The line feed as a string. *)
Definition newline : string := String "010" EmptyString.

(** Two locations that [_get_file] and [_put_file] are known to resolve
    to different stored objects: two S3 locations whose bucket or key
    differ, or an S3 location and a local path.  Two local paths are never
    known apart: different strings may name one file. *)
Definition known_apart (p q : string) : Prop :=
  match s3_path_patt_match p, s3_path_patt_match q with
  | Some a, Some b => a <> b
  | None, None => False
  | _, _ => True
  end.

(** The rows of the store that belong to one pair, in query order. *)
Definition rows_of (key : Z * Z) (rows : list Curation) : list Curation :=
  List.filter (fun cur => bool_decide ((cur_pa_hash cur, cur_source_hash cur) = key))
              rows.

(** The table [attr_maps] of [update_curations] (l.284-286), each line as
    the key of the dict and the attribute of the row that goes under it. *)
Definition attr_maps : list (string * (Curation -> Json)) :=
  [("error_type", cur_tag); ("comment", cur_text); ("email", cur_curator);
   ("source", cur_source); ("ip", cur_ip); ("date", cur_date); ("id", cur_id);
   ("stmt_hash", fun cur => JInt (cur_pa_hash cur));
   ("source_hash", fun cur => JInt (cur_source_hash cur))].

(** [entry] is the dict of the row [cur]: under each key of [attr_maps]
    the row's attribute, and no other key. *)
Definition row_dict (entry : gmap string Json) (cur : Curation) : Prop :=
  forall field : string,
    entry !! field =
    match List.find (fun a => String.eqb (fst a) field) attr_maps with
    | Some a => Some (snd a cur)
    | None => None
    end.

(** The item that [get_curation_list] returns for one key of the cache. *)
Definition curation_item (key : Z * Z) (entries : list (gmap string Json)) : Json :=
  JDict (<["key" := JList [JStr (pretty (fst key)); JStr (pretty (snd key))]]>
        (<["value" := JList (JDict <$> entries)]> ∅)).

(** A sample world whose store already holds two curations of the pair
    (111, 222) and one of the pair (111, 333). *)
Module Stocked.

Definition row (id source_hash : Z) (text : string) : Curation :=
  {| cur_id := JInt id; cur_pa_hash := 111; cur_source_hash := source_hash;
     cur_tag := JStr "grounding"; cur_text := JStr text;
     cur_curator := JStr "curator@example.org"; cur_source := JStr "demo";
     cur_ip := JStr "127.0.0.1"; cur_date := JDate 0 |}.

Definition rows : list Curation :=
  [row 1 222 "first"; row 2 333 "other"; row 3 222 "second"].

(** The cache was loaded at time 0 and the clock now reads [now]. *)
Definition world (now : Z) : World :=
  set_db (H := Sample.collaborators)
         {| Sample.known := [111]; Sample.rows := rows |}
         (Sample.local_world [] (Some 0) now).

End Stocked.

(** * Properties *)

(** ** The selection rule *)

Module SelectFacts.
Import PyStr Select.

Lemma find_snoc {A} (f : A -> bool) (l : list A) (x : A) :
  List.find f (l ++ [x]) =
  match List.find f l with
  | Some y => Some y
  | None => if f x then Some x else None
  end.
Proof.
  induction l as [|y l IH]; simpl.
  - reflexivity.
  - destruct (f y); [reflexivity | exact IH].
Qed.

Lemma find_last_cons {A} (f : A -> bool) (x : A) (l : list A) :
  find_last f (x :: l) =
  match find_last f l with
  | Some y => Some y
  | None => if f x then Some x else None
  end.
Proof. unfold find_last. simpl. apply find_snoc. Qed.

(** The loop, started with any value of [file_path]. *)
Lemma select_file_from regenerate options file_path :
  select_file regenerate options file_path =
  match (if regenerate then None else List.find is_json options) with
  | Some j => (Some j, true)
  | None =>
      (match find_last is_pkl options with
       | Some p => Some p
       | None => file_path
       end, false)
  end.
Proof.
  revert file_path.
  induction options as [|o rest IH]; intros file_path.
  - destruct regenerate; reflexivity.
  - rewrite find_last_cons. cbn [select_file List.find].
    change (endswith o ".json") with (is_json o).
    change (endswith o ".pkl") with (is_pkl o).
    destruct regenerate; cbn [negb].
    + rewrite andb_false_r.
      destruct (is_pkl o); rewrite IH;
        destruct (find_last is_pkl rest); reflexivity.
    + rewrite andb_true_r.
      destruct (is_json o); [reflexivity|].
      destruct (is_pkl o); rewrite IH;
        destruct (List.find is_json rest); try reflexivity;
        destruct (find_last is_pkl rest); reflexivity.
Qed.

(** C1 (as amended): the scan selects the first '.json' candidate, marked
    already rendered, when there is one and regeneration is not forced;
    otherwise it selects, for rendering, the last '.pkl' candidate in scan
    order, and nothing when there is none. *)
Theorem select_file_rule regenerate options :
  select_file regenerate options None =
  match (if regenerate then None else List.find is_json options) with
  | Some j => (Some j, true)
  | None => (find_last is_pkl options, false)
  end.
Proof.
  rewrite select_file_from.
  destruct (if regenerate then None else List.find is_json options);
    [reflexivity|].
  destruct (find_last is_pkl options); reflexivity.
Qed.

(** C1 fails as stated: with the raw candidates [d/a.pkl] and [d/ab.pkl]
    listed in this order for the name [a], the first-match rule names
    [d/a.pkl] but the scan ends on [d/ab.pkl]. *)
Lemma select_file_first_match_counterexample :
  first_match_rule false ["d/a.pkl"; "d/ab.pkl"] = (Some "d/a.pkl", false) /\
  select_file false ["d/a.pkl"; "d/ab.pkl"] None = (Some "d/ab.pkl", false) /\
  select_file false ["d/a.pkl"; "d/ab.pkl"] None
    <> first_match_rule false ["d/a.pkl"; "d/ab.pkl"].
Proof. repeat split; try reflexivity. discriminate. Qed.

End SelectFacts.


(** ** Ungrouped rendering *)

Section Ordering.
Context `{Collaborators}.

Lemma key_ltb_false x y :
  key_ltb (sort_key x) (sort_key y) = false <-> key_ge x y.
Proof.
  unfold key_ltb, key_ge, sort_key; simpl.
  rewrite orb_false_iff, andb_false_iff, Nat.ltb_ge, Nat.eqb_neq, Z.ltb_ge.
  lia.
Qed.

Lemma key_ltb_true x y :
  key_ltb (sort_key x) (sort_key y) = true -> key_ge y x.
Proof.
  unfold key_ltb, key_ge, sort_key; simpl.
  rewrite orb_true_iff, andb_true_iff, Nat.ltb_lt, Nat.eqb_eq, Z.ltb_lt.
  lia.
Qed.

Lemma key_ge_trans x y z : key_ge x y -> key_ge y z -> key_ge x z.
Proof. unfold key_ge. lia. Qed.

Lemma insert_desc_perm x l : Permutation (insert_desc x l) (x :: l).
Proof.
  induction l as [|y l IH]; simpl.
  - reflexivity.
  - destruct (key_ltb (sort_key x) (sort_key y)).
    + rewrite IH. apply perm_swap.
    + reflexivity.
Qed.

Lemma sorted_reverse_perm stmts : Permutation (sorted_reverse stmts) stmts.
Proof.
  induction stmts as [|x l IH]; simpl.
  - reflexivity.
  - rewrite insert_desc_perm. now apply perm_skip.
Qed.

Lemma insert_desc_sorted x l :
  StronglySorted key_ge l -> StronglySorted key_ge (insert_desc x l).
Proof.
  induction 1 as [|y l Hs IH Hy]; simpl.
  - repeat constructor.
  - destruct (key_ltb (sort_key x) (sort_key y)) eqn:E.
    + constructor; [exact IH|].
      apply (Permutation_Forall (Permutation_sym (insert_desc_perm x l))).
      constructor; [now apply key_ltb_true | exact Hy].
    + apply key_ltb_false in E.
      constructor; [now constructor|].
      constructor; [exact E|].
      eapply Forall_impl; [exact Hy|].
      intros z Hz. now apply key_ge_trans with y.
Qed.

Lemma sorted_reverse_sorted stmts : StronglySorted key_ge (sorted_reverse stmts).
Proof.
  induction stmts as [|x l IH]; simpl.
  - constructor.
  - now apply insert_desc_sorted.
Qed.




Lemma stmt_dict_view stmt w v w' :
  stmt_dict stmt w = (Ok v, w') -> view_of v stmt /\ w' = w.
Proof.
  unfold stmt_dict, bind, get, lift, ret, raise.
  destruct (_format_evidence_text stmt (cache w)); [|discriminate].
  destruct (_format_stmt_text stmt); [|discriminate].
  intros [= <- <-]. split; [|reflexivity].
  eexists. split; [reflexivity|]. now simplify_map_eq.
Qed.

Lemma for_each_stmt_dict l w views w' :
  for_each stmt_dict l w = (Ok views, w') -> Forall2 view_of views l /\ w' = w.
Proof.
  revert views w'.
  induction l as [|x l IH]; intros views w'; simpl.
  - intros [= <- <-]. split; [constructor | reflexivity].
  - unfold bind at 1.
    destruct (stmt_dict x w) as [[v|e] w1] eqn:Ex; [|discriminate].
    apply stmt_dict_view in Ex as [Hv ->].
    unfold bind at 1.
    destruct (for_each stmt_dict l w) as [[vs|e] w2] eqn:El; [|discriminate].
    destruct (IH vs w2 eq_refl) as [Hvs ->].
    intros [= <- <-]. split; [now constructor | reflexivity].
Qed.

(** C3: in ungrouped mode the StatementViews that come out are those of the
    statements in the order (evidence_count, hash) descending -- a
    rearrangement of the collection in which every view stands before all
    views of a smaller evidence count, and before all views of the same
    count and a smaller or equal hash; statements with evidence counts
    [3,1,3] and hashes [10,5,20] come out as 20, 10, 5. *)
Theorem ungrouped_sorted_descending :
  (forall req stmts w views w',
      render_stmts req false stmts w = (Ok views, w') ->
      exists ordered,
        Permutation ordered stmts /\
        StronglySorted key_ge ordered /\
        Forall2 view_of views ordered) /\
  (forall s1 s2 s3,
      sort_key s1 = (3%nat, 10) -> sort_key s2 = (1%nat, 5) ->
      sort_key s3 = (3%nat, 20) ->
      sorted_reverse [s1; s2; s3] = [s3; s1; s2]).
Proof.
  split.
  - intros req stmts w views w' Hr. simpl in Hr.
    exists (sorted_reverse stmts).
    split; [apply sorted_reverse_perm|].
    split; [apply sorted_reverse_sorted|].
    now apply for_each_stmt_dict in Hr as [Hv _].
  - intros s1 s2 s3 K1 K2 K3.
    unfold sorted_reverse; simpl. rewrite K2, K3; simpl.
    rewrite K1, K3; simpl. rewrite K2; simpl. reflexivity.
Qed.

End Ordering.

(** The order on the sample statements: the final views carry the hashes
    20, 10 and 5. *)
Lemma ungrouped_sorted_descending_witness :
  let w := Sample.local_world [] (Some 0) 0 in
  exists views,
    render_stmts (H := Sample.collaborators) (Sample.request false false)
                 false Sample.three_stmts w = (Ok views, w) /\
    (exists ordered,
        Permutation ordered Sample.three_stmts /\
        StronglySorted (key_ge (H := Sample.collaborators)) ordered /\
        Forall2 (view_of (H := Sample.collaborators)) views ordered) /\
    Sample.s_hash <$> sorted_reverse (H := Sample.collaborators) Sample.three_stmts
      = [20; 10; 5].
Proof.
  intros w. eexists. split; [vm_compute; reflexivity|].
  split.
  - apply (proj1 (@ungrouped_sorted_descending Sample.collaborators)
                 (Sample.request false false) Sample.three_stmts w _ w).
    vm_compute. reflexivity.
  - exact (f_equal (fmap Sample.s_hash)
                   (proj2 (@ungrouped_sorted_descending Sample.collaborators)
                          Sample.stmt_a Sample.stmt_b Sample.stmt_c
                          eq_refl eq_refl eq_refl)).
Defined.

(** ** The curation cache *)

Section Curations.
Context `{Collaborators}.

(** Running a view means unfolding the monad. *)
Ltac run :=
  unfold bind, get, modify, emit, ret, raise, result, lift, abort,
    datetime_now; cbn.

Lemma update_curations_run w :
  update_curations w =
  (Ok tt,
   set_last_updated (Some (clock w (ticks w)))
     (tick (set_cache (load_curations (select_all (db w)) ∅)
                      (set_trace (SelectedAll :: trace w) w)))).
Proof. reflexivity. Qed.

Lemma refresh_if_stale_run w :
  refresh_if_stale w =
  match last_updated w with
  | None => (Raise TypeError, tick w)
  | Some t =>
      if one_hour <? clock w (ticks w) - t
      then update_curations (tick w) else (Ok tt, tick w)
  end.
Proof.
  unfold refresh_if_stale. run.
  destruct (last_updated w) as [t|]; [|reflexivity].
  destruct (one_hour <? clock w (ticks w) - t); reflexivity.
Qed.

Lemma relevant_curations_world s e w : snd (relevant_curations s e w) = w.
Proof.
  unfold relevant_curations. run.
  destruct (int_of_str s); [|reflexivity].
  destruct (int_of_str e); reflexivity.
Qed.

Lemma all_curations_world w : snd (all_curations w) = w.
Proof. reflexivity. Qed.

Lemma occurrences_cons_select t :
  occurrences is_select_all (SelectedAll :: t) = S (occurrences is_select_all t).
Proof. reflexivity. Qed.

(** A reader is the staleness check followed by an answer that leaves the
    world alone. *)
Lemma reader_stale {A} (answer : M World A) w t :
  (forall w0, snd (answer w0) = w0) ->
  last_updated w = Some t ->
  one_hour < clock w (ticks w) - t ->
  bind refresh_if_stale (fun _ => answer) w
    = answer (snd (update_curations (tick w))) /\
  refreshes (bind refresh_if_stale (fun _ => answer)) w = 1%nat.
Proof.
  intros Hans Hlu Hstale.
  unfold refreshes, bind. rewrite refresh_if_stale_run, Hlu.
  apply Z.ltb_lt in Hstale. rewrite Hstale, update_curations_run.
  split; [reflexivity|].
  cbn [snd]. rewrite Hans. cbn. unfold occurrences. lia.
Qed.

Lemma reader_fresh {A} (answer : M World A) w t :
  (forall w0, snd (answer w0) = w0) ->
  last_updated w = Some t ->
  clock w (ticks w) - t <= one_hour ->
  bind refresh_if_stale (fun _ => answer) w = answer (tick w) /\
  refreshes (bind refresh_if_stale (fun _ => answer)) w = 0%nat.
Proof.
  intros Hans Hlu Hfresh.
  unfold refreshes, bind. rewrite refresh_if_stale_run, Hlu.
  apply Z.ltb_ge in Hfresh. rewrite Hfresh.
  split; [reflexivity|].
  rewrite Hans. cbn. unfold occurrences. lia.
Qed.

(** C2 (as amended): once the cache has been loaded, each of the two
    readers checks its age first.  When [now - last_updated] exceeds one
    hour the reader performs exactly one refresh and answers from the
    refreshed cache; when it does not, the reader performs no refresh and
    answers from the cache as it is. *)
Theorem readers_refresh_when_stale w t :
  last_updated w = Some t ->
  (one_hour < clock w (ticks w) - t ->
   (forall s e,
       get_curation s e w = relevant_curations s e (snd (update_curations (tick w)))
       /\ refreshes (get_curation s e) w = 1%nat) /\
   get_curation_list w = all_curations (snd (update_curations (tick w))) /\
   refreshes get_curation_list w = 1%nat) /\
  (clock w (ticks w) - t <= one_hour ->
   (forall s e,
       get_curation s e w = relevant_curations s e (tick w)
       /\ refreshes (get_curation s e) w = 0%nat) /\
   get_curation_list w = all_curations (tick w) /\
   refreshes get_curation_list w = 0%nat).
Proof.
  intros Hlu. split; intros Hage.
  - split.
    + intros s e. apply (reader_stale _ w t); auto using relevant_curations_world.
    + apply (reader_stale all_curations w t); auto using all_curations_world.
  - split.
    + intros s e. apply (reader_fresh _ w t); auto using relevant_curations_world.
    + apply (reader_fresh all_curations w t); auto using all_curations_world.
Qed.

(** The start-up sequence always stamps [last_updated]: no request is
    served by a process that has never loaded its cache. *)
Lemma startup_loads wd tag email w :
  fst (startup wd tag email w) = Ok tt /\
  last_updated (snd (startup wd tag email w)) = Some (clock w (ticks w)).
Proof. split; reflexivity. Qed.

(** A reader that finds [last_updated] unset raises on the subtraction. *)
Lemma readers_never_loaded w :
  last_updated w = None ->
  (forall s e, get_curation s e w = (Raise TypeError, tick w)) /\
  get_curation_list w = (Raise TypeError, tick w).
Proof.
  intros Hlu. split; [intros s e|];
    unfold get_curation, get_curation_list, bind;
    rewrite refresh_if_stale_run, Hlu; reflexivity.
Qed.

Lemma cache_append_lookup (key : Z * Z) (entry : gmap string Json)
      (c : gmap (Z * Z) (list (gmap string Json))) :
  cache_append key entry c !! key
    = Some ((default [] (c !! key) ++ [entry])%list).
Proof.
  unfold cache_append.
  destruct (c !! key) as [l|] eqn:E; rewrite lookup_alter_eq.
  - now rewrite E.
  - now rewrite lookup_insert_eq.
Qed.

Lemma cache_append_lookup_ne (key key' : Z * Z) (entry : gmap string Json)
      (c : gmap (Z * Z) (list (gmap string Json))) :
  key <> key' -> cache_append key entry c !! key' = c !! key'.
Proof.
  intros Hne. unfold cache_append.
  rewrite lookup_alter_ne by exact Hne.
  destruct (c !! key); [reflexivity|].
  now rewrite lookup_insert_ne.
Qed.

Lemma load_curations_lookup (rows : list Curation)
      (c : gmap (Z * Z) (list (gmap string Json))) (key : Z * Z) :
  load_curations rows c !! key =
  match rows_of key rows with
  | [] => c !! key
  | l => Some ((default [] (c !! key) ++ (cur_dict <$> l))%list)
  end.
Proof.
  revert c. induction rows as [|cur rows IH]; intros c; [reflexivity|].
  cbn [load_curations foldl rows_of List.filter].
  fold (load_curations rows
          (cache_append (cur_pa_hash cur, cur_source_hash cur) (cur_dict cur) c)).
  fold (rows_of key rows). rewrite IH.
  destruct (bool_decide ((cur_pa_hash cur, cur_source_hash cur) = key)) eqn:Ek.
  - apply bool_decide_eq_true in Ek. rewrite Ek, cache_append_lookup.
    cbn [default]. destruct (rows_of key rows) as [|r l]; [reflexivity|].
    unfold id. now rewrite <- List.app_assoc.
  - apply bool_decide_eq_false in Ek.
    now rewrite cache_append_lookup_ne.
Qed.

Lemma cur_dict_row_dict cur : row_dict (cur_dict cur) cur.
Proof.
  intros field. unfold attr_maps, cur_dict. cbn [List.find fst snd].
  repeat match goal with
         | |- context [String.eqb ?k field] =>
             destruct (String.eqb_spec k field) as [<-|?]; [reflexivity|]
         end.
  rewrite !lookup_insert_ne by assumption. apply lookup_empty.
Qed.

(** C9: the update endpoint performs the whole refresh and then hands
    [None] to Flask instead of a response.  The refresh is complete: under
    each pair of hashes the cache holds one dict for each row of the store
    with that pair, in query order, each dict with the row's attributes
    under the keys of [attr_maps], and a pair without rows is absent;
    [last_updated] is stamped with the clock; the store is queried once. *)
Theorem update_endpoint_returns_none w :
  update_curations_endpoint w = (Ok None, snd (update_curations w)) /\
  (forall key : Z * Z,
      match rows_of key (select_all (db w)) with
      | [] => cache (snd (update_curations_endpoint w)) !! key = None
      | rows =>
          exists entries,
            cache (snd (update_curations_endpoint w)) !! key = Some entries /\
            Forall2 row_dict entries rows
      end) /\
  last_updated (snd (update_curations_endpoint w)) = Some (clock w (ticks w)) /\
  refreshes update_curations_endpoint w = 1%nat.
Proof.
  assert (Hrun : update_curations_endpoint w
                 = (Ok None, snd (update_curations w))) by reflexivity.
  split; [exact Hrun|]. rewrite Hrun, update_curations_run.
  cbn [snd cache set_last_updated tick set_ticks set_cache set_trace db
       last_updated].
  split; [|split; [reflexivity|]].
  - intros key. rewrite load_curations_lookup, lookup_empty.
    destruct (rows_of key (select_all (db w))) as [|cur rows]; [reflexivity|].
    exists (cur_dict <$> cur :: rows). split; [reflexivity|].
    apply Forall2_fmap_l, Forall_Forall2_diag, Forall_forall.
    intros x _. apply cur_dict_row_dict.
  - unfold refreshes. rewrite Hrun, update_curations_run. cbn.
    unfold occurrences. cbn. lia.
Qed.

(** C4: when the store rejects the hash of a submission, the view aborts
    with status 400 and a body that names the hash the store rejected, and
    the curation cache -- its map and its time stamp -- is what it was. *)
Theorem submit_unknown_hash req w pa_hash source_hash mk_hash :
  py_int (json_get req "stmt_hash") = Ok pa_hash ->
  py_int (json_get req "source_hash") = Ok source_hash ->
  fst (submit_curation pa_hash (json_get req "error_type") (CURATOR_EMAIL w)
                       (remote_addr req) (json_get req "comment") source_hash
                       (CURATION_TAG w) (db w)) = BadHashError mk_hash ->
  fst (submit_curation_to_db req w)
    = Raise (HTTPException 400 ("Invalid hash: " +:+ pretty mk_hash +:+ ".")) /\
  cache (snd (submit_curation_to_db req w)) = cache w /\
  last_updated (snd (submit_curation_to_db req w)) = last_updated w.
Proof.
  intros Hpa Hsrc Hbad.
  unfold submit_curation_to_db, bind, result.
  rewrite Hpa, Hsrc.
  unfold get, emit, modify, abort, raise. cbn [fst snd set_trace db set_db
    CURATION_TAG CURATOR_EMAIL trace].
  rewrite Hbad. repeat split.
Qed.

(** C5: a submission that the store accepts answers with the new id and
    appends to the sequence of its key -- created when absent -- the
    request body extended with that id, the submitter's address, the
    curator email, the source tag and the clock reading.  Any reader of a
    cache still in that state and younger than one hour returns, without a
    refresh, a sequence that contains the record. *)
Theorem submit_visible req w pa_hash source_hash dbid :
  py_int (json_get req "stmt_hash") = Ok pa_hash ->
  py_int (json_get req "source_hash") = Ok source_hash ->
  fst (submit_curation pa_hash (json_get req "error_type") (CURATOR_EMAIL w)
                       (remote_addr req) (json_get req "comment") source_hash
                       (CURATION_TAG w) (db w)) = Stored dbid ->
  let entry := local_entry req dbid (CURATION_TAG w) (CURATOR_EMAIL w)
                           (clock w (ticks w)) in
  let w' := snd (submit_curation_to_db req w) in
  fst (submit_curation_to_db req w) = Ok (Some (success dbid)) /\
  cache w' !! (pa_hash, source_hash)
    = Some ((default [] (cache w !! (pa_hash, source_hash)) ++ [entry])%list) /\
  (entry !! "id" = Some (JInt dbid) /\
   entry !! "ip" = Some (JStr (remote_addr req)) /\
   entry !! "email" = Some (JOptStr (CURATOR_EMAIL w)) /\
   entry !! "source" = Some (JOptStr (CURATION_TAG w)) /\
   entry !! "date" = Some (JDate (clock w (ticks w)))) /\
  (forall w2 s e t,
      cache w2 = cache w' ->
      int_of_str s = Some pa_hash -> int_of_str e = Some source_hash ->
      last_updated w2 = Some t -> clock w2 (ticks w2) - t <= one_hour ->
      exists records,
        fst (get_curation s e w2) = Ok (Some (jsonify (JList records))) /\
        JDict entry ∈ records /\
        refreshes (get_curation s e) w2 = 0%nat).
Proof.
  intros Hpa Hsrc Hok entry w'.
  assert (Hrun : submit_curation_to_db req w =
                 (Ok (Some (success dbid)),
                  set_cache (cache_append (pa_hash, source_hash) entry (cache w))
                    (tick (set_db (snd (submit_curation pa_hash
                       (json_get req "error_type") (CURATOR_EMAIL w)
                       (remote_addr req) (json_get req "comment") source_hash
                       (CURATION_TAG w) (db w)))
                       (set_trace (Submitted pa_hash source_hash :: trace w) w))))).
  { unfold submit_curation_to_db, bind, result.
    rewrite Hpa, Hsrc.
    unfold get, emit, modify. cbn [fst snd set_trace db set_db
      CURATION_TAG CURATOR_EMAIL trace].
    rewrite Hok. reflexivity. }
  assert (Hcache : cache w' !! (pa_hash, source_hash)
            = Some ((default [] (cache w !! (pa_hash, source_hash)) ++ [entry])%list)).
  { subst w'. rewrite Hrun. cbn [snd cache set_cache]. apply cache_append_lookup. }
  split; [now rewrite Hrun|].
  split; [exact Hcache|].
  split; [subst entry; unfold local_entry; now simplify_map_eq|].
  intros w2 s e t Hsame Hs He Hlu Hfresh.
  destruct (reader_fresh (relevant_curations s e) w2 t
              (relevant_curations_world s e) Hlu Hfresh) as [Hget Hnone].
  fold (get_curation s e) in Hget, Hnone.
  eexists. rewrite Hget. split; [|split; [|exact Hnone]].
  - unfold relevant_curations, bind, lift, get, ret. rewrite Hs, He.
    cbn [fst cache tick set_ticks]. rewrite Hsame, Hcache. reflexivity.
  - cbn [default]. apply list_elem_of_fmap. exists entry.
    split; [reflexivity|]. apply elem_of_app. right. now apply list_elem_of_singleton.
Qed.

End Curations.

(** The readers on the sample store: at one hour and one microsecond the
    cache is refreshed once, at one hour exactly it is not. *)
Lemma readers_refresh_when_stale_witness :
  let stale := Sample.local_world [] (Some 0) 3600000001 in
  let fresh := Sample.local_world [] (Some 0) 3600000000 in
  (refreshes (get_curation "111" "222") stale = 1%nat /\
   refreshes get_curation_list stale = 1%nat) /\
  (refreshes (get_curation "111" "222") fresh = 0%nat /\
   refreshes get_curation_list fresh = 0%nat).
Proof.
  intros stale fresh. split.
  - destruct (proj1 (@readers_refresh_when_stale Sample.collaborators
                       stale 0 eq_refl)) as [Hget [_ Hlist]].
    + reflexivity.
    + split; [apply (Hget "111" "222") | exact Hlist].
  - destruct (proj2 (@readers_refresh_when_stale Sample.collaborators
                       fresh 0 eq_refl)) as [Hget [_ Hlist]].
    + unfold Z.le. vm_compute. discriminate.
    + split; [apply (Hget "111" "222") | exact Hlist].
Defined.

(** C2 fails as stated for a cache that was never loaded: both readers
    raise on [now - None] and no refresh takes place. *)
Lemma readers_never_loaded_counterexample :
  let w := Sample.local_world [] None 0 in
  last_updated w = None /\
  fst (get_curation "111" "222" w) = Raise TypeError /\
  fst (get_curation_list w) = Raise TypeError /\
  refreshes (get_curation "111" "222") w = 0%nat /\
  refreshes get_curation_list w = 0%nat.
Proof. repeat split. Qed.

(** A submission for the hash 112, which the sample store does not know. *)
Lemma submit_unknown_hash_witness :
  let w := Sample.local_world [] (Some 0) 0 in
  let req := Sample.submission 112 222 in
  fst (submit_curation_to_db req w)
    = Raise (HTTPException 400 "Invalid hash: 112.") /\
  cache (snd (submit_curation_to_db req w)) = cache w /\
  last_updated (snd (submit_curation_to_db req w)) = last_updated w.
Proof.
  intros w req.
  exact (@submit_unknown_hash Sample.collaborators req w 112 222 112
           eq_refl eq_refl eq_refl).
Defined.

(** A submission for the key (111, 222), read back at once. *)
Lemma submit_visible_witness :
  let w := Sample.local_world [] (Some 0) 0 in
  let req := Sample.submission 111 222 in
  let w' := snd (submit_curation_to_db req w) in
  fst (submit_curation_to_db req w) = Ok (Some (success 1)) /\
  exists records,
    fst (get_curation "111" "222" w') = Ok (Some (jsonify (JList records))) /\
    JDict (local_entry req 1 (Some "demo") (Some "curator@example.org") 0)
      ∈ records /\
    refreshes (get_curation "111" "222") w' = 0%nat.
Proof.
  intros w req w'.
  destruct (@submit_visible Sample.collaborators req w 111 222 1
              eq_refl eq_refl eq_refl) as (Hresp & _ & _ & Hread).
  split; [exact Hresp|].
  apply (Hread w' "111" "222" 0); try reflexivity.
  unfold Z.le. vm_compute. discriminate.
Defined.

(** ** The render cache pipeline *)

Section Pipeline.
Context `{Collaborators}.

Lemma _list_files_world name w : snd (_list_files name w) = w.
Proof.
  unfold _list_files, bind, get.
  destruct (WORKING_DIR w) as [wd|]; [|reflexivity].
  destruct (s3_path_patt_match wd) as [[bucket prefix]|].
  - destruct (list_objects_v2 _ _ _); reflexivity.
  - unfold listdir. destruct (String.eqb wd ""); [reflexivity|].
    unfold bind, get. destruct (existsb (String.eqb wd) (dirs w)); reflexivity.
Qed.

Lemma _list_files_working_dir name w candidates :
  fst (_list_files name w) = Ok candidates -> exists wd, WORKING_DIR w = Some wd.
Proof.
  unfold _list_files, bind, get.
  destruct (WORKING_DIR w) as [wd|]; [eauto | discriminate].
Qed.

Lemma _get_file_world file_path w : snd (_get_file file_path w) = w.
Proof.
  unfold _get_file, bind, get, lift.
  destruct (s3_path_patt_match file_path) as [[bucket key]|].
  - destruct (assoc_get _ _); reflexivity.
  - destruct (assoc_get _ _); reflexivity.
Qed.

Lemma stmt_dict_world stmt w : snd (stmt_dict stmt w) = w.
Proof.
  unfold stmt_dict, bind, get, lift.
  destruct (_format_evidence_text stmt (cache w)); [|reflexivity].
  destruct (_format_stmt_text stmt); reflexivity.
Qed.

Lemma for_each_stmt_dict_world l w : snd (for_each stmt_dict l w) = w.
Proof.
  induction l as [|x l IH]; [reflexivity|].
  simpl. unfold bind at 1.
  pose proof (stmt_dict_world x w) as Hx.
  destruct (stmt_dict x w) as [[v|e] w1]; simpl in Hx; subst w1; [|reflexivity].
  unfold bind.
  destruct (for_each stmt_dict l w) as [[vs|e] w2]; simpl in IH; subst w2;
    reflexivity.
Qed.

Lemma render_stmts_world req grouped stmts w :
  snd (render_stmts req grouped stmts w) = w.
Proof.
  destruct grouped; simpl.
  - unfold bind, get, lift.
    destruct (make_json_model _ _ _); reflexivity.
  - apply for_each_stmt_dict_world.
Qed.

(** Whatever becomes of a write, it is recorded and it leaves the
    curation state and the globals alone. *)
Lemma _put_file_frame file_path content w :
  let w' := snd (_put_file file_path content w) in
  cache w' = cache w /\ last_updated w' = last_updated w /\ db w' = db w /\
  ticks w' = ticks w /\ trace w' = PutFile file_path :: trace w.
Proof.
  unfold _put_file, bind, emit, modify, get, raise. cbn.
  destruct (s3_path_patt_match file_path) as [[bucket key]|].
  - destruct (faults w file_path) as [[e|partial e]|]; repeat split.
  - destruct (String.eqb file_path ""); [repeat split|].
    destruct (faults w file_path) as [[e|partial e]|]; repeat split.
Qed.

Lemma _put_file_working_dir file_path content w :
  WORKING_DIR (snd (_put_file file_path content w)) = WORKING_DIR w.
Proof.
  unfold _put_file, bind, emit, modify, get, raise. cbn.
  destruct (s3_path_patt_match file_path) as [[bucket key]|].
  - destruct (faults w file_path) as [[e|partial e]|]; reflexivity.
  - destruct (String.eqb file_path ""); [reflexivity|].
    destruct (faults w file_path) as [[e|partial e]|]; reflexivity.
Qed.

Lemma assoc_get_put {K V} `{EqDecision K} (k : K) (v : V) (l : list (K * V)) :
  assoc_get k (assoc_put k v l) = Some v.
Proof.
  induction l as [|[k' v'] l IH]; simpl.
  - now rewrite decide_True.
  - destruct (decide (k = k')) as [->|Hne]; simpl.
    + now rewrite decide_True.
    + now rewrite decide_False.
Qed.

(** What a write that went through has put is what is read back. *)
Lemma _get_file_put file_path content w w' :
  _put_file file_path content w = (Ok tt, w') ->
  fst (_get_file file_path w') = Ok content.
Proof.
  unfold _get_file, _put_file, bind, emit, modify, get, lift, raise. cbn.
  destruct (s3_path_patt_match file_path) as [[bucket key]|].
  - destruct (faults w file_path) as [[e|partial e]|]; [discriminate..|].
    intros [= <-]. cbn. now rewrite assoc_get_put.
  - destruct (String.eqb file_path ""); [discriminate|].
    destruct (faults w file_path) as [[e|partial e]|]; [discriminate..|].
    intros [= <-]. cbn. now rewrite assoc_get_put.
Qed.

(** The two courses of the second half of the view: it raises before the
    write, having only recorded the call to [pickle.loads]; or it has
    unpickled, built and serialized the document, and ends as the write
    ends. *)
Lemma render_and_store_cases req grouped file_path raw w :
  let w0 := set_trace (Unpickled :: trace w) w in
  (exists e, render_and_store req grouped file_path raw w = (Raise e, w0)) \/
  (exists stmts views content,
      pickle_loads raw = Some stmts /\
      fst (render_stmts req grouped stmts w0) = Ok views /\
      json_dumps (rendered_document grouped views) = Some content /\
      render_and_store req grouped file_path raw w
      = (match fst (_put_file (PyStr.replace file_path ".pkl" ".json")
                              content w0) with
         | Ok _ => Ok (Some (jsonify (rendered_document grouped views)))
         | Raise e => Raise e
         end,
         snd (_put_file (PyStr.replace file_path ".pkl" ".json") content w0))).
Proof.
  intros w0. subst w0.
  unfold render_and_store, bind, emit, modify, lift, ret, raise.
  cbn beta iota.
  destruct (pickle_loads raw) as [stmts|]; [|left; eexists; reflexivity].
  pose proof (render_stmts_world req grouped stmts
                (set_trace (Unpickled :: trace w) w)) as Hr.
  destruct (render_stmts req grouped stmts (set_trace _ _))
    as [[views|e1] w1] eqn:Ev; simpl in Hr; subst w1;
    [|left; eexists; reflexivity].
  destruct (json_dumps (rendered_document grouped views)) as [content|] eqn:Ed;
    [|left; eexists; reflexivity].
  right. exists stmts, views, content.
  split; [reflexivity|]. split; [now rewrite Ev|]. split; [exact Ed|].
  now destruct (_put_file _ content _) as [[[]|e2] w2].
Qed.

(** A render that raises has recorded the call to [pickle.loads]; if it
    has done more, it is the write that raised. *)
Lemma render_and_store_raise req grouped file_path raw w e w' :
  render_and_store req grouped file_path raw w = (Raise e, w') ->
  w' = set_trace (Unpickled :: trace w) w \/
  exists stmts views content,
    pickle_loads raw = Some stmts /\
    fst (render_stmts req grouped stmts (set_trace (Unpickled :: trace w) w))
      = Ok views /\
    json_dumps (rendered_document grouped views) = Some content /\
    _put_file (PyStr.replace file_path ".pkl" ".json") content
              (set_trace (Unpickled :: trace w) w) = (Raise e, w').
Proof.
  destruct (render_and_store_cases req grouped file_path raw w)
    as [[e0 ->]|(stmts & views & content & Hs & Hv & Hd & ->)].
  - intros [= _ <-]. now left.
  - destruct (_put_file _ content _) as [[[]|e2] w2] eqn:Ep; cbn [fst snd];
      [discriminate|].
    intros [= <- <-]. right. now exists stmts, views, content.
Qed.

(** A render that returns has written the serialized document to the
    location obtained from the raw one, and returns that document. *)
Lemma render_and_store_ok req grouped file_path raw w r w' :
  render_and_store req grouped file_path raw w = (Ok r, w') ->
  exists doc content,
    json_dumps doc = Some content /\
    r = Some (jsonify doc) /\
    _put_file (PyStr.replace file_path ".pkl" ".json") content
              (set_trace (Unpickled :: trace w) w) = (Ok tt, w').
Proof.
  destruct (render_and_store_cases req grouped file_path raw w)
    as [[e0 ->]|(stmts & views & content & Hs & Hv & Hd & ->)];
    [discriminate|].
  destruct (_put_file _ content _) as [[[]|e2] w2] eqn:Ep; cbn [fst snd];
    [|discriminate].
  intros [= <- <-]. now exists (rendered_document grouped views), content.
Qed.

(** The trace of a render that raises has grown. *)
Lemma render_and_store_raise_trace req grouped file_path raw w e w' :
  render_and_store req grouped file_path raw w = (Raise e, w') ->
  exists events, events <> [] /\ trace w' = (events ++ trace w)%list.
Proof.
  intros Hr. apply render_and_store_raise in Hr
    as [->|(stmts & views & content & _ & _ & _ & Hp)].
  - now exists [Unpickled].
  - exists [PutFile (PyStr.replace file_path ".pkl" ".json"); Unpickled].
    split; [discriminate|].
    apply (f_equal snd) in Hp. cbn [snd] in Hp. rewrite <- Hp.
    now destruct (_put_file_frame (PyStr.replace file_path ".pkl" ".json") content
                    (set_trace (Unpickled :: trace w) w)) as (_ & _ & _ & _ & ->).
Qed.

(** The view up to the point where the two paths part. *)
Lemma get_json_content_run req name w wd candidates :
  WORKING_DIR w = Some wd ->
  fst (_list_files name w) = Ok candidates ->
  get_json_content req name w =
  match Select.select_file (arg_is_true req "regen") candidates None with
  | (None, _) => (Raise (HTTPException 400 (invalid_name name wd)), w)
  | (Some file_path, is_json) =>
      match fst (_get_file file_path w) with
      | Raise e => (Raise e, w)
      | Ok raw =>
          if is_json then
            match json_loads raw with
            | Some doc => (Ok (Some (jsonify doc)), w)
            | None => (Raise JSONDecodeError, w)
            end
          else render_and_store req (arg_is_true req "grouped") file_path raw w
      end
  end.
Proof.
  intros Hwd Hls.
  unfold get_json_content, assert_working_dir, bind at 1 2. unfold get at 1.
  rewrite Hwd. unfold lift at 1, ret at 1. unfold bind at 1.
  pose proof (_list_files_world name w) as Hw.
  destruct (_list_files name w) as [r w1]; simpl in Hw, Hls; subst w1 r.
  destruct (Select.select_file _ candidates None) as [[file_path|] is_json];
    [|reflexivity].
  unfold bind at 1.
  pose proof (_get_file_world file_path w) as Hg.
  destruct (_get_file file_path w) as [[raw|e] w1]; simpl in Hg |- *; subst w1;
    [|reflexivity].
  destruct is_json; [|reflexivity].
  unfold bind, lift. destruct (json_loads raw); reflexivity.
Qed.

Lemma get_json_content_unset req name w :
  WORKING_DIR w = None ->
  get_json_content req name w
    = (Raise (AssertionError "WORKING_DIR is not defined."), w).
Proof.
  intros Hwd. unfold get_json_content, assert_working_dir, bind, get.
  now rewrite Hwd.
Qed.

Lemma get_json_content_unlisted req name w wd e :
  WORKING_DIR w = Some wd ->
  fst (_list_files name w) = Raise e ->
  get_json_content req name w = (Raise e, w).
Proof.
  intros Hwd Hls.
  unfold get_json_content, assert_working_dir, bind at 1 2. unfold get at 1.
  rewrite Hwd. unfold lift at 1, ret at 1. unfold bind at 1.
  pose proof (_list_files_world name w) as Hw.
  destruct (_list_files name w) as [r w1]; simpl in Hw, Hls; subst w1 r.
  reflexivity.
Qed.

Lemma same_store_refl w : same_store w w.
Proof. repeat split. Qed.

(** C6: when the scan selects a rendered artifact and regeneration is not
    asked for, the view is the read of that artifact followed by its
    deserialization: it returns the stored document as it is and leaves the
    world alone.  The [grouped] argument plays no part: two requests that
    both leave [regen] off get the same result whatever else they carry. *)
Theorem cached_document_ignores_grouped req name w candidates file_path :
  arg_is_true req "regen" = false ->
  fst (_list_files name w) = Ok candidates ->
  Select.select_file false candidates None = (Some file_path, true) ->
  get_json_content req name w
    = (match fst (_get_file file_path w) with
       | Ok raw =>
           match json_loads raw with
           | Some doc => Ok (Some (jsonify doc))
           | None => Raise JSONDecodeError
           end
       | Raise e => Raise e
       end, w) /\
  (forall req',
      arg_is_true req' "regen" = false ->
      get_json_content req' name w = get_json_content req name w).
Proof.
  intros Hregen Hls Hsel.
  destruct (_list_files_working_dir name w candidates Hls) as [wd Hwd].
  assert (Hrun : forall r, arg_is_true r "regen" = false ->
            get_json_content r name w
            = (match fst (_get_file file_path w) with
               | Ok raw =>
                   match json_loads raw with
                   | Some doc => Ok (Some (jsonify doc))
                   | None => Raise JSONDecodeError
                   end
               | Raise e => Raise e
               end, w)).
  { intros r Hr. rewrite (get_json_content_run r name w wd candidates Hwd Hls).
    rewrite Hr, Hsel.
    destruct (fst (_get_file file_path w)) as [raw|e]; [|reflexivity].
    destruct (json_loads raw); reflexivity. }
  split; [now apply Hrun|].
  intros req' Hregen'. now rewrite !Hrun.
Qed.

(** C8: a call of the view that raises has either written nothing --
    both backends hold what they held and [_put_file] was not called -- or
    it is the write itself that raised, and then the raw bytes had been
    unpickled and the document built and serialized before [_put_file] was
    called.  So a render that fails -- the raw bytes do not unpickle, a
    formatter or the serializer raises -- leaves the stored artifacts as
    they were: the write comes only after the document exists. *)
Theorem failed_render_writes_nothing req name w e w' :
  get_json_content req name w = (Raise e, w') ->
  same_store w w' \/
  exists file_path raw stmts views content,
    fst (_get_file file_path w) = Ok raw /\
    pickle_loads raw = Some stmts /\
    fst (render_stmts req (arg_is_true req "grouped") stmts
                      (set_trace (Unpickled :: trace w) w)) = Ok views /\
    json_dumps (rendered_document (arg_is_true req "grouped") views)
      = Some content /\
    _put_file (PyStr.replace file_path ".pkl" ".json") content
              (set_trace (Unpickled :: trace w) w) = (Raise e, w').
Proof.
  destruct (WORKING_DIR w) as [wd|] eqn:Hwd.
  - destruct (fst (_list_files name w)) as [candidates|e0] eqn:Hls.
    + rewrite (get_json_content_run req name w wd candidates Hwd Hls).
      destruct (Select.select_file _ candidates None) as [[file_path|] is_json].
      * destruct (fst (_get_file file_path w)) as [raw|e1] eqn:Hg.
        -- destruct is_json.
           ++ destruct (json_loads raw); [discriminate|].
              intros [= _ <-]. left. apply same_store_refl.
           ++ intros Hr. apply render_and_store_raise in Hr
                as [->|(stmts & views & content & Hs & Hv & Hd & Hp)].
              ** left. repeat split.
              ** right. now exists file_path, raw, stmts, views, content.
        -- intros [= _ <-]. left. apply same_store_refl.
      * intros [= _ <-]. left. apply same_store_refl.
    + rewrite (get_json_content_unlisted req name w wd e0 Hwd Hls).
      intros [= _ <-]. left. apply same_store_refl.
  - rewrite (get_json_content_unset req name w Hwd).
    intros [= _ <-]. left. apply same_store_refl.
Qed.

(** A write that fails.  Under the local root [run.pkl/] the document of
    [x] is to be saved as [run.json/x.json], in a directory that does not
    exist: the view raises what [open] raises, after the raw file has been
    unpickled and [_put_file] called, and the files are what they were. *)
Lemma write_into_missing_directory :
  let w := Sample.missing_dir_world in
  let w' := snd (get_json_content (Sample.request false false) "x" w) in
  fst (get_json_content (Sample.request false false) "x" w)
    = Raise (FileNotFoundError "run.json/x.json") /\
  fs w' = fs w /\
  trace w' = [PutFile "run.json/x.json"; Unpickled].
Proof. repeat split. Qed.

(** The intended course of two requests for a name with a single raw
    candidate: when the document saved by the first request shows as the
    first '.json' candidate of the name, and [json.loads] undoes
    [json.dumps], the second request returns the same response and leaves
    the world as the first one left it: nothing is unpickled or written. *)
Lemma second_resolve_cached req req' name w file_path r w1 found :
  arg_is_true req "regen" = false ->
  arg_is_true req' "regen" = false ->
  fst (_list_files name w) = Ok [file_path] ->
  Select.select_file false [file_path] None = (Some file_path, false) ->
  get_json_content req name w = (Ok r, w1) ->
  fst (_list_files name w1) = Ok found ->
  List.find Select.is_json found
    = Some (PyStr.replace file_path ".pkl" ".json") ->
  (forall doc content, json_dumps doc = Some content ->
                       json_loads content = Some doc) ->
  get_json_content req' name w1 = (Ok r, w1).
Proof.
  intros Hregen Hregen' Hls Hsel Hfirst Hls1 Hfind Hround.
  destruct (_list_files_working_dir name w _ Hls) as [wd Hwd].
  rewrite (get_json_content_run req name w wd _ Hwd Hls), Hregen, Hsel in Hfirst.
  destruct (fst (_get_file file_path w)) as [raw|e]; [|discriminate].
  apply render_and_store_ok in Hfirst as (doc & content & Hdumps & -> & Hput).
  rewrite (get_json_content_run req' name _ wd found); [| |exact Hls1].
  - rewrite Hregen', SelectFacts.select_file_from. cbn match. rewrite Hfind.
    rewrite (_get_file_put _ _ _ _ Hput), (Hround doc content Hdumps).
    reflexivity.
  - apply (f_equal snd) in Hput. cbn [snd] in Hput. rewrite <- Hput.
    now rewrite _put_file_working_dir.
Qed.

End Pipeline.

(** A cached document on the sample store, asked for flat and grouped. *)
Lemma cached_document_ignores_grouped_witness :
  let w := Sample.local_world [("d/x.pkl", "pickle:three"); ("d/x.json", "json:flat")]
                              (Some 0) 0 in
  get_json_content (Sample.request false false) "x" w
    = (Ok (Some (jsonify (JStr "json:flat"))), w) /\
  get_json_content (Sample.request false true) "x" w
    = get_json_content (Sample.request false false) "x" w.
Proof.
  intros w.
  destruct (@cached_document_ignores_grouped Sample.collaborators
              (Sample.request false false) "x" w
              ["d/x.pkl"; "d/x.json"] "d/x.json"
              eq_refl eq_refl eq_refl) as [Hdoc Hsame].
  split; [exact Hdoc | now apply Hsame].
Defined.

(** A raw artifact that does not unpickle: the view raises and the store
    keeps its single file. *)
Lemma failed_render_writes_nothing_witness :
  let w := Sample.local_world [("d/x.pkl", "not a pickle")] (Some 0) 0 in
  let w' := snd (get_json_content (Sample.request false false) "x" w) in
  fst (get_json_content (Sample.request false false) "x" w)
    = Raise UnpicklingError /\
  same_store w w' /\
  fs w' = [("d/x.pkl", "not a pickle")].
Proof.
  intros w w'.
  split; [reflexivity|].
  split; [|reflexivity].
  destruct (@failed_render_writes_nothing Sample.collaborators
              (Sample.request false false) "x" w UnpicklingError w' eq_refl)
    as [Hsame|(file_path & raw & stmts & views & content & _ & _ & _ & _ & Hput)].
  - exact Hsame.
  - apply (f_equal (fun r => trace (snd r))) in Hput. cbn [snd] in Hput.
    destruct (_put_file_frame (PyStr.replace file_path ".pkl" ".json") content
                (set_trace (Unpickled :: trace w) w)) as (_ & _ & _ & _ & Htr).
    rewrite Htr in Hput. discriminate Hput.
Defined.

(** ** Listing the logical names *)

Section Listing.
Context `{Collaborators}.

Lemma add_option_elem wd (acc : gset string) option n :
  n ∈ add_option wd acc option <-> n ∈ acc \/ derives wd option n.
Proof.
  unfold add_option, derives. cbn [foldl].
  fold (logical_name wd option ".html"). fold (logical_name wd option ".pkl").
  split.
  - intros Hn.
    destruct (PyStr.endswith option ".pkl") eqn:Ep.
    + apply elem_of_union in Hn as [Hn|Hn].
      * apply elem_of_singleton in Hn. right. exists ".pkl".
        split; [set_solver | now split].
      * destruct (PyStr.endswith option ".html") eqn:Eh; [|now left].
        apply elem_of_union in Hn as [Hn|Hn]; [|now left].
        apply elem_of_singleton in Hn. right. exists ".html".
        split; [set_solver | now split].
    + destruct (PyStr.endswith option ".html") eqn:Eh; [|now left].
      apply elem_of_union in Hn as [Hn|Hn]; [|now left].
      apply elem_of_singleton in Hn. right. exists ".html".
      split; [set_solver | now split].
  - intros [Hn|(ending & Hin & Hend & ->)].
    + destruct (PyStr.endswith option ".pkl"), (PyStr.endswith option ".html");
        set_solver.
    + apply elem_of_cons in Hin as [->|Hin].
      * rewrite Hend. destruct (PyStr.endswith option ".pkl"); set_solver.
      * apply list_elem_of_singleton in Hin as ->. rewrite Hend. set_solver.
Qed.

Lemma foldl_add_option_elem wd candidates (acc : gset string) n :
  n ∈ foldl (add_option wd) acc candidates <->
  n ∈ acc \/ exists option, option ∈ candidates /\ derives wd option n.
Proof.
  revert acc.
  induction candidates as [|o l IH]; intros acc; cbn [foldl].
  - split; [now left|]. intros [Hn|(o & Ho & _)]; [exact Hn|].
    now apply elem_of_nil in Ho.
  - rewrite IH, add_option_elem. split.
    + intros [[Hn|Hd]|(o' & Ho' & Hd)].
      * now left.
      * right. exists o. split; [apply list_elem_of_here | exact Hd].
      * right. exists o'. split; [now apply list_elem_of_further | exact Hd].
    + intros [Hn|(o' & Ho' & Hd)].
      * now left; left.
      * apply elem_of_cons in Ho' as [->|Ho'].
        -- now left; right.
        -- right. now exists o'.
Qed.

Lemma list_names_run w wd candidates :
  WORKING_DIR w = Some wd ->
  fst (_list_files "" w) = Ok candidates ->
  list_names w =
  (Ok (Some (jsonify (JList (JStr <$> elements
                               (foldl (add_option wd) (∅ : gset string) candidates))))),
   w).
Proof.
  intros Hwd Hls.
  unfold list_names, assert_working_dir, bind at 1 2. unfold get at 1.
  rewrite Hwd. unfold lift at 1, ret at 1. unfold bind at 1.
  pose proof (_list_files_world "" w) as Hw.
  destruct (_list_files "" w) as [r w1]; simpl in Hw, Hls; subst w1 r.
  reflexivity.
Qed.

(** When every candidate that yields [name] is the file of that name in
    the working root -- the two [replace] calls did no more than strip the
    root and the ending -- a listed name has a raw or an '.html' file. *)
Lemma listed_name_has_file wd candidates name :
  (forall option ending,
      option ∈ candidates -> ending ∈ [".html"; ".pkl"] ->
      PyStr.endswith option ending = true ->
      logical_name wd option ending = name ->
      option = wd +:+ name +:+ ending) ->
  name ∈ foldl (add_option wd) (∅ : gset string) candidates ->
  wd +:+ name +:+ ".html" ∈ candidates \/ wd +:+ name +:+ ".pkl" ∈ candidates.
Proof.
  intros Hstrip Hin.
  apply foldl_add_option_elem in Hin as [Hin|(o & Ho & ending & He & Hend & Hn)];
    [now apply not_elem_of_empty in Hin|].
  pose proof (Hstrip o ending Ho He Hend (eq_sym Hn)) as ->.
  apply elem_of_cons in He as [->|He]; [now left|].
  apply list_elem_of_singleton in He as ->. now right.
Qed.

(** The names that [GET /list] returns are, without repetition, the
    names derived from the candidates that end in '.html' or '.pkl': the
    candidate with every occurrence of that ending, then of the working
    root, removed. *)
Lemma list_names_derived w wd candidates :
  WORKING_DIR w = Some wd ->
  fst (_list_files "" w) = Ok candidates ->
  exists names,
    list_names w = (Ok (Some (jsonify (JList (JStr <$> names)))), w) /\
    NoDup names /\
    (forall n, n ∈ names <->
               exists option, option ∈ candidates /\ derives wd option n).
Proof.
  intros Hwd Hls.
  exists (elements (foldl (add_option wd) (∅ : gset string) candidates)).
  split; [now apply list_names_run|].
  split; [apply NoDup_elements|].
  intros n. rewrite elem_of_elements, foldl_add_option_elem.
  split; [intros [Hn|Hn]; [now apply not_elem_of_empty in Hn | exact Hn]
         | now right].
Qed.

End Listing.

(** C10: a working root [d/] that holds the rendered [a.json] and the raw
    [.pkla.pkl].  The only candidate of the name [a] is its rendered
    '.json' file, and [GET /json/a] serves it; yet [GET /list] returns [a]:
    the raw file ends in '.pkl', and removing every '.pkl' and then every
    [d/] from [d/.pkla.pkl] leaves [a]. *)
Theorem json_only_name_is_listed :
  let w := Sample.local_world
             [("d/a.json", "json:flat"); ("d/.pkla.pkl", "pickle:three")]
             (Some 0) 0 in
  fst (_list_files "" w) = Ok ["d/a.json"; "d/.pkla.pkl"] /\
  fst (_list_files "a" w) = Ok ["d/a.json"] /\
  list_names w = (Ok (Some (jsonify (JList [JStr "a"]))), w) /\
  get_json_content (Sample.request false false) "a" w
    = (Ok (Some (jsonify (JStr "json:flat"))), w).
Proof. repeat split. Qed.

(** ** Rendering twice under a root that contains '.pkl'

    C7: the bucket [b] holds the single object [run.pkl/x.pkl] and the
    working root is [s3:b/run.pkl/].  The first [GET /json/x] renders and
    saves the document under [run.json/x.json], since every '.pkl' of the
    location is rewritten; that key does not start with [run.pkl/x], so the
    second [GET /json/x] finds the raw artifact alone, unpickles and renders
    it again and writes a second time. *)
Lemma second_resolve_renders_again :
  let w0 := Sample.s3_world "run.pkl/" [("run.pkl/x.pkl", "pickle:three")] in
  let req := Sample.request false false in
  let w1 := snd (get_json_content req "x" w0) in
  let w2 := snd (get_json_content req "x" w1) in
  fst (_list_files "x" w0) = Ok ["s3:b/run.pkl/x.pkl"] /\
  s3 w1 = [("b", "run.pkl/x.pkl", "pickle:three");
           ("b", "run.json/x.json", "json:flat")] /\
  fst (_list_files "x" w1) = Ok ["s3:b/run.pkl/x.pkl"] /\
  occurrences is_unpickle (trace w1) = 1%nat /\
  occurrences is_unpickle (trace w2) = 2%nat /\
  occurrences is_put (trace w2) = 2%nat.
Proof. vm_compute. repeat split. Qed.

(** Under the root [d/] the same two requests behave as intended: the
    document is saved as [d/x.json] and the second request is served from
    it, with [pickle.loads] called once in all. *)
Lemma second_resolve_served_from_store :
  let w0 := Sample.local_world [("d/x.pkl", "pickle:three")] (Some 0) 0 in
  let req := Sample.request false false in
  let w1 := snd (get_json_content req "x" w0) in
  let w2 := snd (get_json_content req "x" w1) in
  fs w1 = [("d/x.pkl", "pickle:three"); ("d/x.json", "json:flat")] /\
  fst (_list_files "x" w1) = Ok ["d/x.pkl"; "d/x.json"] /\
  w2 = w1 /\
  occurrences is_unpickle (trace w2) = 1%nat.
Proof. vm_compute. repeat split. Qed.

(** * Further properties of the service *)
(** ** Locations *)

Module Locations.

Lemma app_cons c (a b : string) : String c a +:+ b = String c (a +:+ b).
Proof. reflexivity. Qed.

Lemma app_nil_l (s : string) : "" +:+ s = s.
Proof. reflexivity. Qed.

Lemma prefix_app_drop p s :
  String.prefix p s = true -> s = p +:+ PyStr.drop (String.length p) s.
Proof.
  revert s. induction p as [|a p IH]; intros s.
  - reflexivity.
  - destruct s as [|b s]; simpl; [discriminate|].
    destruct (ascii_dec a b) as [->|]; [|discriminate].
    intros Hp. rewrite app_cons. f_equal. now apply IH.
Qed.

Lemma prefix_app p s : String.prefix p (p +:+ s) = true.
Proof.
  induction p as [|a p IH]; [now destruct s|].
  rewrite app_cons. simpl.
  destruct (ascii_dec a a); [exact IH | congruence].
Qed.

Lemma prefix_app_l p n s :
  String.prefix (p +:+ n) s = true -> String.prefix p s = true.
Proof.
  revert s. induction p as [|a p IH]; intros s.
  - now destruct s.
  - destruct s as [|b s]; simpl; [discriminate|].
    destruct (ascii_dec a b); [apply IH | discriminate].
Qed.

Lemma app_assoc (a b c : string) : (a +:+ b) +:+ c = a +:+ (b +:+ c).
Proof.
  induction a as [|x a IH]; [reflexivity|]. now rewrite !app_cons, IH.
Qed.

Lemma span_bucket_spec s b r :
  span_bucket s = (b, r) ->
  s = b +:+ r /\ all_chars is_bucket_char b = true /\
  match r with
  | String c _ => is_bucket_char c = false
  | EmptyString => True
  end.
Proof.
  revert b r. induction s as [|c s IH]; intros b r; cbn [span_bucket].
  - intros [= <- <-]. now repeat split.
  - destruct (is_bucket_char c) eqn:Ec.
    + destruct (span_bucket s) as [b' r'].
      intros [= <- <-]. destruct (IH b' r' eq_refl) as (-> & Hb & Hr).
      repeat split; [cbn [all_chars]; now rewrite Ec, Hb | exact Hr].
    + intros [= <- <-]. now repeat split.
Qed.

Lemma span_bucket_app b r :
  all_chars is_bucket_char b = true ->
  match r with
  | String c _ => is_bucket_char c = false
  | EmptyString => True
  end ->
  span_bucket (b +:+ r) = (b, r).
Proof.
  intros Hb Hr. induction b as [|c b IH].
  - rewrite app_nil_l. destruct r as [|c r]; [reflexivity|].
    cbn [span_bucket]. now rewrite Hr.
  - cbn [all_chars] in Hb. apply andb_prop in Hb as [Hc Hb].
    rewrite app_cons. cbn [span_bucket]. now rewrite Hc, IH.
Qed.

Lemma dot_star_to_end_sound s k :
  dot_star_to_end s = Some k ->
  no_newline k = true /\ (s = k \/ s = k +:+ newline).
Proof.
  unfold no_newline, newline.
  revert k. induction s as [|c s IH]; intros k; cbn [dot_star_to_end].
  - intros [= <-]. split; [reflexivity | now left].
  - destruct (Ascii.eqb c "010") eqn:Ec.
    + apply Ascii.eqb_eq in Ec as ->.
      destruct (String.eqb_spec s "") as [->|]; [|discriminate].
      intros [= <-]. split; [reflexivity | now right].
    + destruct (dot_star_to_end s) as [k'|]; [|discriminate].
      intros [= <-]. destruct (IH k' eq_refl) as [Hk Hs].
      split.
      * cbn [PyStr.contains_char]. rewrite Ascii.eqb_sym, Ec. exact Hk.
      * destruct Hs as [->| ->]; [now left | right; now rewrite app_cons].
Qed.

Lemma dot_star_to_end_plain k :
  no_newline k = true -> dot_star_to_end k = Some k.
Proof.
  unfold no_newline.
  induction k as [|c k IH]; cbn [PyStr.contains_char dot_star_to_end];
    [reflexivity|].
  rewrite Ascii.eqb_sym.
  destruct (Ascii.eqb c "010"); [discriminate|].
  intros Hk. now rewrite IH.
Qed.

Lemma dot_star_to_end_newline k :
  no_newline k = true -> dot_star_to_end (k +:+ newline) = Some k.
Proof.
  unfold no_newline, newline.
  induction k as [|c k IH]; [reflexivity|].
  rewrite app_cons. cbn [PyStr.contains_char dot_star_to_end].
  rewrite Ascii.eqb_sym.
  destruct (Ascii.eqb c "010"); [discriminate|].
  intros Hk. now rewrite IH.
Qed.

(** The pattern, with the dispatch on the character after the bucket
    written as a test. *)
Lemma s3_path_patt_match_unfold s :
  s3_path_patt_match s =
  if String.prefix "s3:" s then
    match span_bucket (PyStr.drop 3 s) with
    | (b, r) =>
        if String.eqb b "" then None
        else match r with
             | String c rest =>
                 if Ascii.eqb c "/"
                 then option_map (pair b) (dot_star_to_end rest)
                 else None
             | EmptyString => None
             end
    end
  else None.
Proof.
  unfold s3_path_patt_match.
  destruct (String.prefix "s3:" s); [|reflexivity].
  destruct (span_bucket (PyStr.drop 3 s)) as [b r].
  destruct b as [|x b]; [reflexivity|].
  destruct r as [|c rest]; [reflexivity|].
  destruct c as [[] [] [] [] [] [] [] []]; reflexivity.
Qed.

Lemma s3_path_patt_match_sound s b k :
  s3_path_patt_match s = Some (b, k) ->
  b <> "" /\ all_chars is_bucket_char b = true /\ no_newline k = true /\
  (s = "s3:" +:+ b +:+ "/" +:+ k \/ s = "s3:" +:+ b +:+ "/" +:+ k +:+ newline).
Proof.
  rewrite s3_path_patt_match_unfold.
  destruct (String.prefix "s3:" s) eqn:Ep; [|discriminate].
  apply prefix_app_drop in Ep. cbn [String.length] in Ep.
  destruct (span_bucket (PyStr.drop 3 s)) as [b' r] eqn:Es.
  apply span_bucket_spec in Es as (Hs & Hb & _).
  destruct (String.eqb_spec b' "") as [|Hne]; [discriminate|].
  destruct r as [|c rest]; [discriminate|].
  destruct (Ascii.eqb_spec c "/") as [->|]; [|discriminate].
  destruct (dot_star_to_end rest) as [k'|] eqn:Ed; [|discriminate].
  intros [= <- <-].
  apply dot_star_to_end_sound in Ed as [Hk Hrest].
  repeat split; try assumption.
  rewrite Ep, Hs.
  destruct Hrest as [->| ->]; [now left | now right].
Qed.

Lemma s3_path_patt_match_built b rest k :
  b <> "" -> all_chars is_bucket_char b = true ->
  dot_star_to_end rest = Some k ->
  s3_path_patt_match ("s3:" +:+ b +:+ "/" +:+ rest) = Some (b, k).
Proof.
  intros Hne Hb Hrest.
  rewrite s3_path_patt_match_unfold, prefix_app.
  change (PyStr.drop 3 ("s3:" +:+ b +:+ "/" +:+ rest))
    with (b +:+ String "/" rest).
  rewrite span_bucket_app by (exact Hb || reflexivity).
  destruct (String.eqb_spec b "") as [|_]; [contradiction|].
  cbn [Ascii.eqb Bool.eqb]. now rewrite Hrest.
Qed.

(** X1: a location is taken for an S3 object exactly when it reads
    [s3:<bucket>/<key>], with a non-empty bucket of letters, digits, '-' and
    '_' and a key free of line feeds; one line feed after the key is
    tolerated and dropped.  So [s3:bucket] without the slash, or a bucket
    name with a dot, is a local path. *)
Theorem s3_path_patt_match_spec s b k :
  s3_path_patt_match s = Some (b, k) <->
  b <> "" /\ all_chars is_bucket_char b = true /\ no_newline k = true /\
  (s = "s3:" +:+ b +:+ "/" +:+ k \/ s = "s3:" +:+ b +:+ "/" +:+ k +:+ newline).
Proof.
  split; [apply s3_path_patt_match_sound|].
  intros (Hne & Hb & Hk & [->| ->]);
    apply s3_path_patt_match_built; auto using dot_star_to_end_plain,
      dot_star_to_end_newline.
Qed.

Lemma assoc_get_elem {K V} `{EqDecision K} (k : K) (v : V) (l : list (K * V)) :
  (k, v) ∈ l -> is_Some (assoc_get k l).
Proof.
  induction l as [|[k' v'] l IH]; intros Hin.
  - now apply elem_of_nil in Hin.
  - cbn [assoc_get]. destruct (decide (k = k')); [eauto|].
    apply elem_of_cons in Hin as [[= -> ->]|Hin]; [congruence | now apply IH].
Qed.

End Locations.

Section S3Listing.
Context `{Collaborators}.

Lemma _list_files_s3 name w wd bucket prefix :
  WORKING_DIR w = Some wd ->
  s3_path_patt_match wd = Some (bucket, prefix) ->
  fst (_list_files name w)
    = Ok ((fun k => "s3:" +:+ bucket +:+ "/" +:+ k)
            <$> list_objects_v2 bucket (prefix +:+ name) (s3 w)).
Proof.
  intros Hwd Hm. unfold _list_files, bind, get. rewrite Hwd, Hm.
  now destruct (list_objects_v2 _ _ _).
Qed.


(** X2: under an S3 working root, each candidate that [_list_files] returns is
    [s3:<bucket>/<key>] for an object of the bucket whose key starts with
    the root prefix followed by the name; when the key holds no line feed,
    [_get_file] reads that object back and leaves the world as it is. *)
Theorem s3_candidates_readable name w wd bucket prefix candidates c :
  WORKING_DIR w = Some wd ->
  s3_path_patt_match wd = Some (bucket, prefix) ->
  fst (_list_files name w) = Ok candidates ->
  c ∈ candidates ->
  exists key,
    c = "s3:" +:+ bucket +:+ "/" +:+ key /\
    PyStr.startswith key (prefix +:+ name) = true /\
    is_Some (assoc_get (bucket, key) (s3 w)) /\
    (no_newline key = true ->
     exists body, assoc_get (bucket, key) (s3 w) = Some body /\
                  _get_file c w = (Ok body, w)).
Proof.
  intros Hwd Hm Hls Hc.
  rewrite (_list_files_s3 name w wd bucket prefix Hwd Hm) in Hls.
  injection Hls as <-.
  apply list_elem_of_fmap in Hc as (key & -> & Hkey).
  unfold list_objects_v2 in Hkey.
  apply list_elem_of_omap in Hkey as ([[b k] body] & Hin & Hsel).
  destruct (String.eqb_spec b bucket) as [->|]; [|discriminate].
  destruct (PyStr.startswith k (prefix +:+ name)) eqn:Hp; [|discriminate].
  injection Hsel as ->.
  exists key. split; [reflexivity|]. split; [exact Hp|].
  pose proof (Locations.assoc_get_elem (bucket, key) body (s3 w) Hin) as [body' Hget].
  split; [eauto|].
  intros Hnl. exists body'. split; [exact Hget|].
  apply Locations.s3_path_patt_match_sound in Hm as (Hne & Hb & _ & _).
  assert (Hparse : s3_path_patt_match ("s3:" +:+ bucket +:+ "/" +:+ key)
                   = Some (bucket, key)).
  { apply Locations.s3_path_patt_match_built; auto using Locations.dot_star_to_end_plain. }
  unfold _get_file. rewrite Hparse. unfold bind, get, lift. now rewrite Hget.
Qed.

End S3Listing.

Lemma s3_path_patt_match_spec_witness :
  s3_path_patt_match "s3:my-bucket/runs/" = Some ("my-bucket", "runs/") /\
  s3_path_patt_match "s3:my-bucket" = None /\
  s3_path_patt_match "s3:my.bucket/runs/" = None.
Proof.
  split; [|split; reflexivity].
  apply (proj2 (Locations.s3_path_patt_match_spec
                  "s3:my-bucket/runs/" "my-bucket" "runs/")).
  repeat split; [discriminate | now left].
Defined.

Lemma s3_candidates_readable_witness :
  let w := Sample.s3_world "run/" [("run/x.pkl", "pickle:three");
                                   ("run/y.pkl", "pickle:none")] in
  fst (_list_files "x" w) = Ok ["s3:b/run/x.pkl"] /\
  _get_file "s3:b/run/x.pkl" w = (Ok "pickle:three", w).
Proof.
  intros w. split; [reflexivity|].
  destruct (@s3_candidates_readable Sample.collaborators "x" w "s3:b/run/"
              "b" "run/" ["s3:b/run/x.pkl"] "s3:b/run/x.pkl"
              eq_refl eq_refl eq_refl (list_elem_of_here _ _))
    as (key & Hc & _ & _ & Hread).
  assert (key = "run/x.pkl") as -> by (now injection Hc).
  destruct (Hread eq_refl) as (body & Hbody & Hget).
  injection Hbody as <-. exact Hget.
Defined.

(** ** The scan and the view around it *)

Module ScanFacts.
Import PyStr Select.

Lemma find_none_iff {A} (f : A -> bool) (l : list A) :
  List.find f l = None <-> forall x, x ∈ l -> f x = false.
Proof.
  split.
  - intros Hn x Hx. apply list_elem_of_In in Hx. exact (List.find_none f l Hn x Hx).
  - induction l as [|y l IH]; intros Hall; [reflexivity|].
    cbn [List.find]. rewrite (Hall y (list_elem_of_here _ _)).
    apply IH. intros x Hx. apply Hall. now apply list_elem_of_further.
Qed.

Lemma find_some_elem {A} (f : A -> bool) (l : list A) x :
  List.find f l = Some x -> x ∈ l /\ f x = true.
Proof.
  intros Hf. apply List.find_some in Hf as [Hin Hx].
  split; [now apply list_elem_of_In | exact Hx].
Qed.

Lemma find_last_some {A} (f : A -> bool) (l : list A) x :
  find_last f l = Some x -> x ∈ l /\ f x = true.
Proof.
  unfold find_last. intros Hf. apply find_some_elem in Hf as [Hin Hx].
  split; [|exact Hx]. apply list_elem_of_In, List.in_rev.
  now apply list_elem_of_In.
Qed.

Lemma find_last_none_iff {A} (f : A -> bool) (l : list A) :
  find_last f l = None <-> forall x, x ∈ l -> f x = false.
Proof.
  unfold find_last. rewrite find_none_iff. split; intros Hall x Hx.
  - apply Hall. apply list_elem_of_In. rewrite <- List.in_rev.
    now apply list_elem_of_In.
  - apply Hall. apply list_elem_of_In, List.in_rev. now apply list_elem_of_In.
Qed.

Lemma select_file_none_iff regenerate options :
  fst (select_file regenerate options None) = None <->
  (forall o, o ∈ options -> is_pkl o = false) /\
  (regenerate = true \/ forall o, o ∈ options -> is_json o = false).
Proof.
  rewrite SelectFacts.select_file_from.
  destruct regenerate.
  - cbn [fst]. destruct (find_last is_pkl options) as [p|] eqn:Ep.
    + split; [discriminate|]. intros [Hall _].
      apply find_last_some in Ep as [Hin Hp]. rewrite (Hall p Hin) in Hp.
      discriminate.
    + pose proof (proj1 (find_last_none_iff _ _) Ep) as Hp.
      split; [intros _; now split; [|left] | reflexivity].
  - destruct (List.find is_json options) as [j|] eqn:Ej.
    + cbn [fst]. split; [discriminate|]. intros [_ [Hr|Hall]]; [discriminate|].
      apply find_some_elem in Ej as [Hin Hj]. rewrite (Hall j Hin) in Hj.
      discriminate.
    + cbn [fst]. pose proof (proj1 (find_none_iff _ _) Ej) as Hj.
      destruct (find_last is_pkl options) as [p|] eqn:Ep.
      * split; [discriminate|]. intros [Hall _].
        apply find_last_some in Ep as [Hin Hp]. rewrite (Hall p Hin) in Hp.
        discriminate.
      * pose proof (proj1 (find_last_none_iff _ _) Ep) as Hp.
        split; [intros _; now split; [|right] | reflexivity].
Qed.

(** X4: whatever the scan selects is one of the candidates.  When it is marked
    as already rendered it ends in '.json' and regeneration was not asked
    for; otherwise it ends in '.pkl'. *)
Theorem select_file_sound regenerate options file_path is_json_flag :
  select_file regenerate options None = (Some file_path, is_json_flag) ->
  file_path ∈ options /\
  if is_json_flag
  then regenerate = false /\ is_json file_path = true
  else is_pkl file_path = true.
Proof.
  rewrite SelectFacts.select_file_from.
  destruct regenerate.
  - destruct (find_last is_pkl options) as [p|] eqn:Ep; [|discriminate].
    intros [= <- <-]. now apply find_last_some in Ep.
  - destruct (List.find is_json options) as [j|] eqn:Ej.
    + intros [= <- <-]. apply find_some_elem in Ej as [Hin Hj]. now repeat split.
    + destruct (find_last is_pkl options) as [p|] eqn:Ep; [|discriminate].
      intros [= <- <-]. now apply find_last_some in Ep.
Qed.

End ScanFacts.

Lemma select_file_sound_witness :
  Select.select_file false ["d/a.pkl"; "d/a.json"; "d/ab.pkl"] None
    = (Some "d/a.json", true) /\
  "d/a.json" ∈ ["d/a.pkl"; "d/a.json"; "d/ab.pkl"] /\
  Select.is_json "d/a.json" = true.
Proof.
  destruct (ScanFacts.select_file_sound false ["d/a.pkl"; "d/a.json"; "d/ab.pkl"]
              "d/a.json" true eq_refl) as (Hin & _ & Hj).
  split; [reflexivity|]. split; [exact Hin | exact Hj].
Defined.

Section ViewFacts.
Context `{Collaborators}.

Lemma trace_grows (events t : list event) :
  t = (events ++ t)%list -> events = [].
Proof.
  intros Heq. apply (f_equal (@length event)) in Heq.
  rewrite List.length_app in Heq. destruct events; [reflexivity|].
  simpl in Heq. lia.
Qed.

Lemma _get_file_raise file_path w e :
  fst (_get_file file_path w) = Raise e ->
  (exists bucket key, e = NoSuchKey bucket key) \/ e = FileNotFoundError file_path.
Proof.
  unfold _get_file, bind, get, lift.
  destruct (s3_path_patt_match file_path) as [[bucket key]|].
  - destruct (assoc_get _ _); [discriminate|]. intros [= <-]. left. eauto.
  - destruct (assoc_get _ _); [discriminate|]. intros [= <-]. now right.
Qed.

(** X5: [GET /json/<name>] aborts with status 400 and the "Invalid name"
    message, which quotes the name and the working root, exactly when no
    candidate ends in '.pkl' and either regeneration is asked for or no
    candidate ends in '.json'.  A rendered artifact alone does not serve a
    request to regenerate.  The abort leaves the world as it is. *)
Theorem get_json_content_invalid_name req name w wd candidates :
  WORKING_DIR w = Some wd ->
  fst (_list_files name w) = Ok candidates ->
  get_json_content req name w
    = (Raise (HTTPException 400 (invalid_name name wd)), w) <->
  (forall o, o ∈ candidates -> Select.is_pkl o = false) /\
  (arg_is_true req "regen" = true \/
   forall o, o ∈ candidates -> Select.is_json o = false).
Proof.
  intros Hwd Hls.
  rewrite (get_json_content_run req name w wd candidates Hwd Hls).
  rewrite <- ScanFacts.select_file_none_iff.
  destruct (Select.select_file (arg_is_true req "regen") candidates None)
    as [[file_path|] is_json].
  - cbn [fst]. split; [|discriminate].
    destruct (fst (_get_file file_path w)) as [raw|e] eqn:Hg.
    2:{ apply _get_file_raise in Hg as [(b & k & ->)| ->]; discriminate. }
    destruct is_json.
    + destruct (json_loads raw); discriminate.
    + intros Hr. apply render_and_store_raise_trace in Hr
        as (events & Hne & Htr).
      now apply trace_grows in Htr.
  - cbn [fst]. split; reflexivity.
Qed.

Lemma list_names_world w : snd (list_names w) = w.
Proof.
  unfold list_names, assert_working_dir, bind at 1 2. unfold get at 1.
  destruct (WORKING_DIR w) as [wd|]; [|reflexivity].
  unfold lift at 1, ret at 1. unfold bind at 1.
  pose proof (_list_files_world "" w) as Hw.
  destruct (_list_files "" w) as [[candidates|e] w1]; simpl in Hw; subst w1;
    reflexivity.
Qed.

(** X6: the two file views never touch the curation state: [GET /list] leaves
    the whole world as it is, and [GET /json/<name>], whatever it returns
    or raises, leaves the cache, its time stamp, the relational store and
    the clock alone and queries no curation. *)
Theorem file_views_keep_curations req name w :
  snd (list_names w) = w /\
  let w' := snd (get_json_content req name w) in
  cache w' = cache w /\ last_updated w' = last_updated w /\ db w' = db w /\
  ticks w' = ticks w /\
  occurrences is_select_all (trace w') = occurrences is_select_all (trace w).
Proof.
  split; [apply list_names_world|].
  destruct (WORKING_DIR w) as [wd|] eqn:Hwd;
    [|rewrite (get_json_content_unset req name w Hwd); now repeat split].
  destruct (fst (_list_files name w)) as [candidates|e0] eqn:Hls;
    [|rewrite (get_json_content_unlisted req name w wd e0 Hwd Hls);
      now repeat split].
  rewrite (get_json_content_run req name w wd candidates Hwd Hls).
  destruct (Select.select_file _ candidates None) as [[file_path|] is_json];
    [|now repeat split].
  destruct (fst (_get_file file_path w)) as [raw|e1]; [|now repeat split].
  destruct is_json; [destruct (json_loads raw); now repeat split|].
  destruct (render_and_store req _ file_path raw w) as [[r|e2] w1] eqn:Hr.
  - apply render_and_store_ok in Hr as (doc & content & _ & _ & Hp).
    apply (f_equal snd) in Hp. cbn [snd] in Hp |- *. rewrite <- Hp.
    destruct (_put_file_frame (PyStr.replace file_path ".pkl" ".json") content
                (set_trace (Unpickled :: trace w) w)) as (Hc & Hl & Hd & Ht & Htr).
    rewrite Hc, Hl, Hd, Ht, Htr. now repeat split.
  - apply render_and_store_raise in Hr
      as [->|(stmts & views & content & _ & _ & _ & Hp)];
      [now repeat split|].
    apply (f_equal snd) in Hp. cbn [snd] in Hp |- *. rewrite <- Hp.
    destruct (_put_file_frame (PyStr.replace file_path ".pkl" ".json") content
                (set_trace (Unpickled :: trace w) w)) as (Hc & Hl & Hd & Ht & Htr).
    rewrite Hc, Hl, Hd, Ht, Htr. now repeat split.
Qed.

(** X7: when the scan selects a raw artifact and the view returns, it returns
    a document that it has just written: the serialization of that document
    is what [_get_file] now reads at the location obtained from the raw one
    by [replace('.pkl', '.json')], and the call made one [pickle.loads] and
    one write. *)
Theorem rendered_document_is_stored req name w wd candidates file_path r w' :
  WORKING_DIR w = Some wd ->
  fst (_list_files name w) = Ok candidates ->
  Select.select_file (arg_is_true req "regen") candidates None
    = (Some file_path, false) ->
  get_json_content req name w = (Ok r, w') ->
  exists doc content,
    r = Some (jsonify doc) /\
    json_dumps doc = Some content /\
    fst (_get_file (PyStr.replace file_path ".pkl" ".json") w') = Ok content /\
    trace w' = PutFile (PyStr.replace file_path ".pkl" ".json")
                 :: Unpickled :: trace w.
Proof.
  intros Hwd Hls Hsel.
  rewrite (get_json_content_run req name w wd candidates Hwd Hls), Hsel.
  destruct (fst (_get_file file_path w)) as [raw|e]; [|discriminate].
  intros Hr. apply render_and_store_ok in Hr as (doc & content & Hd & -> & Hp).
  exists doc, content.
  repeat split; [exact Hd | exact (_get_file_put _ _ _ _ Hp)|].
  apply (f_equal snd) in Hp. cbn [snd] in Hp. rewrite <- Hp.
  now destruct (_put_file_frame (PyStr.replace file_path ".pkl" ".json") content
                  (set_trace (Unpickled :: trace w) w)) as (_ & _ & _ & _ & ->).
Qed.

(** X8: with [regen=true] a call that returns has always rendered: it never
    serves a stored document, it unpickles once and writes once. *)
Theorem regenerate_always_renders req name w r w' :
  arg_is_true req "regen" = true ->
  get_json_content req name w = (Ok r, w') ->
  occurrences is_unpickle (trace w') = S (occurrences is_unpickle (trace w)) /\
  occurrences is_put (trace w') = S (occurrences is_put (trace w)).
Proof.
  intros Hregen.
  destruct (WORKING_DIR w) as [wd|] eqn:Hwd;
    [|rewrite (get_json_content_unset req name w Hwd); discriminate].
  destruct (fst (_list_files name w)) as [candidates|e0] eqn:Hls;
    [|rewrite (get_json_content_unlisted req name w wd e0 Hwd Hls);
      discriminate].
  rewrite (get_json_content_run req name w wd candidates Hwd Hls), Hregen.
  rewrite SelectFacts.select_file_from. cbn match.
  destruct (Select.find_last Select.is_pkl candidates) as [file_path|];
    [|discriminate].
  destruct (fst (_get_file file_path w)) as [raw|e]; [|discriminate].
  intros Hr. apply render_and_store_ok in Hr as (doc & content & _ & _ & Hp).
  apply (f_equal snd) in Hp. cbn [snd] in Hp. rewrite <- Hp.
  destruct (_put_file_frame (PyStr.replace file_path ".pkl" ".json") content
              (set_trace (Unpickled :: trace w) w)) as (_ & _ & _ & _ & ->).
  split; reflexivity.
Qed.

End ViewFacts.

Lemma get_json_content_invalid_name_witness :
  let w := Sample.local_world [("d/a.json", "json:flat")] (Some 0) 0 in
  get_json_content (Sample.request true false) "a" w
    = (Raise (HTTPException 400 (invalid_name "a" "d/")), w).
Proof.
  intros w.
  apply (proj2 (@get_json_content_invalid_name Sample.collaborators
                  (Sample.request true false) "a" w "d/" ["d/a.json"]
                  eq_refl eq_refl)).
  split; [|now left].
  intros o Ho. apply list_elem_of_singleton in Ho as ->. reflexivity.
Defined.

Lemma rendered_document_is_stored_witness :
  let w := Sample.local_world [("d/x.pkl", "pickle:three")] (Some 0) 0 in
  exists r w',
    get_json_content (Sample.request false false) "x" w = (Ok r, w') /\
    exists doc content,
      r = Some (jsonify doc) /\
      Sample.dumps doc = Some content /\
      fst (_get_file "d/x.json" w') = Ok content /\
      trace w' = [PutFile "d/x.json"; Unpickled].
Proof.
  intros w.
  destruct (get_json_content (Sample.request false false) "x" w)
    as [[r|e] w'] eqn:Hrun.
  - exists r, w'. split; [reflexivity|].
    exact (@rendered_document_is_stored Sample.collaborators
             (Sample.request false false) "x" w "d/" ["d/x.pkl"] "d/x.pkl"
             r w' eq_refl eq_refl eq_refl Hrun).
  - apply (f_equal fst) in Hrun. vm_compute in Hrun. discriminate.
Defined.

Lemma regenerate_always_renders_witness :
  let w := Sample.local_world [("d/x.pkl", "pickle:three"); ("d/x.json", "json:flat")]
                              (Some 0) 0 in
  exists r w',
    get_json_content (Sample.request true false) "x" w = (Ok r, w') /\
    occurrences is_unpickle (trace w') = 1%nat /\
    occurrences is_put (trace w') = 1%nat.
Proof.
  intros w.
  destruct (get_json_content (Sample.request true false) "x" w)
    as [[r|e] w'] eqn:Hrun.
  - exists r, w'. split; [reflexivity|].
    exact (@regenerate_always_renders Sample.collaborators
             (Sample.request true false) "x" w r w' eq_refl Hrun).
  - apply (f_equal fst) in Hrun. vm_compute in Hrun. discriminate.
Defined.

(** ** Where the document is saved *)

Module ReplaceFacts.
Import PyStr.

Lemma app_nil_r (s : string) : s +:+ "" = s.
Proof.
  induction s as [|c s IH]; [reflexivity|]. now rewrite Locations.app_cons, IH.
Qed.

Lemma prefix_refl s : String.prefix s s = true.
Proof.
  induction s as [|c s IH]; [reflexivity|]. simpl.
  destruct (ascii_dec c c); [exact IH | congruence].
Qed.

Lemma replace_scan_skip old new s k :
  (String.length s <= k)%nat -> replace_scan old new k s = "".
Proof.
  revert k. induction s as [|c s IH]; intros k Hk; [reflexivity|].
  destruct k as [|k]; [simpl in Hk; lia|].
  cbn [replace_scan]. apply IH. simpl in Hk. lia.
Qed.

(** When [old] occurs in [stem ++ old] only as its ending, the scan
    rewrites that ending and nothing else. *)
Lemma replace_scan_ending c o new stem :
  (forall k, (k < String.length stem)%nat ->
             String.prefix (String c o) (drop k (stem +:+ String c o)) = false) ->
  replace_scan (String c o) new O (stem +:+ String c o) = stem +:+ new.
Proof.
  induction stem as [|x stem IH]; intros Hocc.
  - rewrite !Locations.app_nil_l. cbn [replace_scan].
    rewrite prefix_refl. cbn [String.length Nat.pred].
    rewrite replace_scan_skip by lia. apply app_nil_r.
  - rewrite !Locations.app_cons. cbn [replace_scan].
    pose proof (Hocc O ltac:(simpl; lia)) as H0.
    rewrite Locations.app_cons in H0. cbn [drop] in H0. rewrite H0.
    f_equal. apply IH. intros k Hk.
    pose proof (Hocc (S k) ltac:(simpl; lia)) as Hk'.
    now rewrite Locations.app_cons in Hk'.
Qed.

Lemma replace_pkl_json stem :
  (forall k, (k < String.length stem)%nat ->
             String.prefix ".pkl" (drop k (stem +:+ ".pkl")) = false) ->
  replace (stem +:+ ".pkl") ".pkl" ".json" = stem +:+ ".json".
Proof. intros Hocc. unfold replace. now apply replace_scan_ending. Qed.

End ReplaceFacts.

Section StoreFacts.
Context `{Collaborators}.

(** X9: when '.pkl' occurs in the selected location only as its ending,
    the document is saved beside the raw artifact, under the same stem with the
    ending '.json', and can be read back from there. *)
Theorem rendered_next_to_raw req name w wd candidates stem r w' :
  WORKING_DIR w = Some wd ->
  fst (_list_files name w) = Ok candidates ->
  Select.select_file (arg_is_true req "regen") candidates None
    = (Some (stem +:+ ".pkl"), false) ->
  (forall k, (k < String.length stem)%nat ->
             String.prefix ".pkl" (PyStr.drop k (stem +:+ ".pkl")) = false) ->
  get_json_content req name w = (Ok r, w') ->
  exists doc content,
    r = Some (jsonify doc) /\
    json_dumps doc = Some content /\
    fst (_get_file (stem +:+ ".json") w') = Ok content /\
    trace w' = PutFile (stem +:+ ".json") :: Unpickled :: trace w.
Proof.
  intros Hwd Hls Hsel Hocc.
  rewrite (get_json_content_run req name w wd candidates Hwd Hls), Hsel.
  destruct (fst (_get_file (stem +:+ ".pkl") w)) as [raw|e]; [|discriminate].
  intros Hr. apply render_and_store_ok in Hr as (doc & content & Hd & -> & Hp).
  rewrite (ReplaceFacts.replace_pkl_json stem Hocc) in Hp.
  exists doc, content.
  repeat split; [exact Hd | exact (_get_file_put _ _ _ _ Hp)|].
  apply (f_equal snd) in Hp. cbn [snd] in Hp. rewrite <- Hp.
  now destruct (_put_file_frame (stem +:+ ".json") content
                  (set_trace (Unpickled :: trace w) w)) as (_ & _ & _ & _ & ->).
Qed.

Lemma assoc_get_put_ne {K V} `{EqDecision K} (k k' : K) (v : V) (l : list (K * V)) :
  k <> k' -> assoc_get k' (assoc_put k v l) = assoc_get k' l.
Proof.
  intros Hne. induction l as [|[k0 v0] l IH]; cbn [assoc_put assoc_get].
  - now rewrite decide_False by congruence.
  - destruct (decide (k = k0)) as [->|Hk]; cbn [assoc_get].
    + now rewrite !decide_False by congruence.
    + destruct (decide (k' = k0)); [reflexivity | exact IH].
Qed.

(** X3: when [_put_file] returns, what it has written at a location is
    what [_get_file] then reads there -- as the same characters: text and
    bytes are not told apart -- and what is read at a location known to
    denote another object has not changed. *)
Theorem put_then_get p content q w w' :
  _put_file p content w = (Ok tt, w') ->
  fst (_get_file p w') = Ok content /\
  (known_apart p q -> fst (_get_file q w') = fst (_get_file q w)).
Proof.
  intros Hput. split; [exact (_get_file_put _ _ _ _ Hput)|].
  unfold known_apart. revert Hput.
  unfold _get_file, _put_file, bind, emit, modify, get, lift, raise. cbn.
  destruct (s3_path_patt_match p) as [[pb pk]|].
  - destruct (faults w p) as [[e|partial e]|]; [discriminate..|].
    intros [= <-].
    destruct (s3_path_patt_match q) as [[qb qk]|]; cbn; intros Hdiff.
    + rewrite assoc_get_put_ne by exact Hdiff.
      now destruct (assoc_get (qb, qk) (s3 w)).
    + now destruct (assoc_get q (fs w)).
  - destruct (String.eqb p ""); [discriminate|].
    destruct (faults w p) as [[e|partial e]|]; [discriminate..|].
    intros [= <-].
    destruct (s3_path_patt_match q) as [[qb qk]|]; cbn; intros Hdiff.
    + now destruct (assoc_get (qb, qk) (s3 w)).
    + destruct Hdiff.
Qed.

End StoreFacts.

Lemma rendered_next_to_raw_witness :
  let w := Sample.local_world [("d/x.pkl", "pickle:three")] (Some 0) 0 in
  exists r w',
    get_json_content (Sample.request false false) "x" w = (Ok r, w') /\
    exists doc content,
      r = Some (jsonify doc) /\
      Sample.dumps doc = Some content /\
      fst (_get_file "d/x.json" w') = Ok content /\
      trace w' = [PutFile "d/x.json"; Unpickled].
Proof.
  intros w.
  destruct (get_json_content (Sample.request false false) "x" w)
    as [[r|e] w'] eqn:Hrun.
  - exists r, w'. split; [reflexivity|].
    apply (@rendered_next_to_raw Sample.collaborators
             (Sample.request false false) "x" w "d/" ["d/x.pkl"] "d/x"
             r w' eq_refl eq_refl eq_refl); [|exact Hrun].
    intros k Hk. do 3 (destruct k as [|k]; [reflexivity|]).
    simpl in Hk. lia.
  - apply (f_equal fst) in Hrun. vm_compute in Hrun. discriminate.
Defined.

Lemma put_then_get_witness :
  let w := Sample.s3_world "run/" [("run/x.pkl", "pickle:three")] in
  let w' := snd (_put_file "s3:b/run/x.json" "json:flat" w) in
  fst (_get_file "s3:b/run/x.json" w') = Ok "json:flat" /\
  fst (_get_file "s3:b/run/x.pkl" w') = Ok "pickle:three".
Proof.
  intros w w'.
  destruct (@put_then_get Sample.collaborators "s3:b/run/x.json" "json:flat"
              "s3:b/run/x.pkl" w w' eq_refl) as [Hsame Hother].
  split; [exact Hsame|].
  rewrite Hother; [reflexivity|].
  unfold known_apart. cbn. discriminate.
Defined.

(** ** More on the curation cache *)

Section CacheFacts.
Context `{Collaborators}.


(** X13: a read of a stale cache answers from the store: the sequence returned
    for a pair holds the dicts of the store's rows of that pair, in query
    order, and nothing that was only in the cache. *)
Theorem stale_read_answers_from_store w t s e a b :
  last_updated w = Some t ->
  one_hour < clock w (ticks w) - t ->
  int_of_str s = Some a -> int_of_str e = Some b ->
  fst (get_curation s e w)
    = Ok (Some (jsonify (JList (JDict <$> (cur_dict <$>
              rows_of (a, b) (select_all (db w))))))).
Proof.
  intros Hlu Hstale Hs He.
  destruct (reader_stale (relevant_curations s e) w t
              (relevant_curations_world s e) Hlu Hstale) as [Hget _].
  fold (get_curation s e) in Hget. rewrite Hget.
  unfold relevant_curations, bind, lift, get, ret. rewrite Hs, He.
  cbn [fst]. rewrite update_curations_run.
  cbn [snd cache set_last_updated tick set_ticks set_cache set_trace db].
  rewrite load_curations_lookup, lookup_empty.
  now destruct (rows_of (a, b) (select_all (db w))).
Qed.

(** X14: the refresh made by a stale read stamps the cache with the second
    clock reading of that read: a read that follows within one hour of the
    stamp performs no refresh. *)
Theorem refresh_resets_staleness w t s e s' e' :
  last_updated w = Some t ->
  one_hour < clock w (ticks w) - t ->
  clock w (S (S (ticks w))) - clock w (S (ticks w)) <= one_hour ->
  let w1 := snd (get_curation s e w) in
  last_updated w1 = Some (clock w (S (ticks w))) /\
  refreshes (get_curation s' e') w1 = 0%nat.
Proof.
  intros Hlu Hstale Hnext w1.
  destruct (reader_stale (relevant_curations s e) w t
              (relevant_curations_world s e) Hlu Hstale) as [Hget _].
  fold (get_curation s e) in Hget.
  assert (Hw1 : w1 = snd (update_curations (tick w))).
  { subst w1. rewrite Hget. apply relevant_curations_world. }
  rewrite update_curations_run in Hw1. cbn [snd] in Hw1.
  assert (Hlu1 : last_updated w1 = Some (clock w (S (ticks w))))
    by (now rewrite Hw1).
  split; [exact Hlu1|].
  apply (reader_fresh (relevant_curations s' e') w1 (clock w (S (ticks w)))
           (relevant_curations_world s' e') Hlu1).
  now rewrite Hw1.
Qed.

(** X15: on a cache that is not stale, [GET /curations/<a>/<b>] returns the
    entries held under the pair, and the empty sequence -- not an error --
    for a pair the cache does not hold. *)
Theorem fresh_read_answer w t s e a b :
  last_updated w = Some t ->
  clock w (ticks w) - t <= one_hour ->
  int_of_str s = Some a -> int_of_str e = Some b ->
  fst (get_curation s e w)
    = Ok (Some (jsonify (JList (JDict <$> default [] (cache w !! (a, b)))))) /\
  (cache w !! (a, b) = None ->
   fst (get_curation s e w) = Ok (Some (jsonify (JList [])))).
Proof.
  intros Hlu Hfresh Hs He.
  destruct (reader_fresh (relevant_curations s e) w t
              (relevant_curations_world s e) Hlu Hfresh) as [Hget _].
  fold (get_curation s e) in Hget. rewrite Hget.
  unfold relevant_curations, bind, lift, get, ret. rewrite Hs, He.
  cbn [fst cache tick set_ticks].
  split; [reflexivity|]. now intros ->.
Qed.

(** X16: a path segment that is not an integer makes the view raise
    [ValueError], but only after the staleness check: the refresh of a
    stale cache has then already been made. *)
Theorem get_curation_bad_segment w t s e :
  last_updated w = Some t ->
  int_of_str s = None \/ int_of_str e = None ->
  fst (get_curation s e w) = Raise ValueError /\
  refreshes (get_curation s e) w
    = if one_hour <? clock w (ticks w) - t then 1%nat else 0%nat.
Proof.
  intros Hlu Hbad.
  assert (Hans : forall w0, fst (relevant_curations s e w0) = Raise ValueError).
  { intros w0. unfold relevant_curations, bind, lift.
    destruct Hbad as [Hs|He]; [now rewrite Hs|].
    destruct (int_of_str s); [now rewrite He | reflexivity]. }
  destruct (Z.ltb_spec one_hour (clock w (ticks w) - t)) as [Hstale|Hfresh].
  - destruct (reader_stale (relevant_curations s e) w t
                (relevant_curations_world s e) Hlu Hstale) as [Hget Hn].
    fold (get_curation s e) in Hget, Hn. now rewrite Hget, Hans.
  - destruct (reader_fresh (relevant_curations s e) w t
                (relevant_curations_world s e) Hlu Hfresh) as [Hget Hn].
    fold (get_curation s e) in Hget, Hn. now rewrite Hget, Hans.
Qed.

(** X17: on a cache that is not stale, [GET /curations] returns one item for
    each key of the cache and no other: the item carries the two hashes of
    the key as strings and the entries held under it. *)
Theorem get_curation_list_items w t :
  last_updated w = Some t ->
  clock w (ticks w) - t <= one_hour ->
  exists items,
    fst (get_curation_list w) = Ok (Some (jsonify (JList items))) /\
    length items = size (cache w) /\
    forall item,
      item ∈ items <->
      exists key entries,
        cache w !! key = Some entries /\ item = curation_item key entries.
Proof.
  intros Hlu Hfresh.
  destruct (reader_fresh all_curations w t all_curations_world Hlu Hfresh)
    as [Hget _].
  fold get_curation_list in Hget.
  exists ((fun kv => curation_item (fst kv) (snd kv)) <$> map_to_list (cache w)).
  split; [now rewrite Hget|].
  split; [now rewrite length_fmap, length_map_to_list|].
  intros item. rewrite list_elem_of_fmap. split.
  - intros ([key entries] & -> & Hin). apply elem_of_map_to_list in Hin.
    now exists key, entries.
  - intros (key & entries & Hin & ->). exists (key, entries).
    split; [reflexivity | now apply elem_of_map_to_list].
Qed.

(** X18: a submission whose [stmt_hash] or [source_hash] is missing or is not
    an integer raises before the store is contacted: nothing is recorded
    and the world is as it was. *)
Theorem submit_rejects_unreadable_hashes req w :
  (json req !! "stmt_hash" = None ->
   submit_curation_to_db req w = (Raise TypeError, w)) /\
  (forall e, py_int (json_get req "stmt_hash") = Raise e ->
             submit_curation_to_db req w = (Raise e, w)) /\
  (forall pa_hash e,
      py_int (json_get req "stmt_hash") = Ok pa_hash ->
      py_int (json_get req "source_hash") = Raise e ->
      submit_curation_to_db req w = (Raise e, w)).
Proof.
  assert (Hfirst : forall e, py_int (json_get req "stmt_hash") = Raise e ->
                             submit_curation_to_db req w = (Raise e, w)).
  { intros e He. unfold submit_curation_to_db, bind, result. now rewrite He. }
  split; [|split; [exact Hfirst|]].
  - intros Hmiss. apply Hfirst. unfold json_get. now rewrite Hmiss.
  - intros pa_hash e Hpa He.
    unfold submit_curation_to_db, bind, result. now rewrite Hpa, He.
Qed.

(** X19: a submission that the store accepts changes the cache under its own
    pair only: every other pair, the time stamp of the cache and both
    storage backends are as before, and the new entry keeps every field of
    the request body other than the five it sets itself. *)
Theorem submit_touches_one_key req w pa_hash source_hash dbid :
  py_int (json_get req "stmt_hash") = Ok pa_hash ->
  py_int (json_get req "source_hash") = Ok source_hash ->
  fst (submit_curation pa_hash (json_get req "error_type") (CURATOR_EMAIL w)
                       (remote_addr req) (json_get req "comment") source_hash
                       (CURATION_TAG w) (db w)) = Stored dbid ->
  let w' := snd (submit_curation_to_db req w) in
  (forall key, key <> (pa_hash, source_hash) -> cache w' !! key = cache w !! key) /\
  last_updated w' = last_updated w /\
  s3 w' = s3 w /\ fs w' = fs w /\
  (forall field,
      field ∉ ["id"; "ip"; "email"; "source"; "date"] ->
      local_entry req dbid (CURATION_TAG w) (CURATOR_EMAIL w) (clock w (ticks w))
        !! field = json req !! field).
Proof.
  intros Hpa Hsrc Hok w'. subst w'.
  unfold submit_curation_to_db, bind, result.
  rewrite Hpa, Hsrc.
  unfold get, emit, modify. cbn [fst snd set_trace db set_db
    CURATION_TAG CURATOR_EMAIL trace].
  rewrite Hok. cbn.
  split; [|split; [reflexivity|split; [reflexivity|split; [reflexivity|]]]].
  - intros key Hne. now apply cache_append_lookup_ne.
  - intros field Hf. unfold local_entry.
    rewrite !lookup_insert_ne; [reflexivity|..];
      intros <-; apply Hf; repeat constructor.
Qed.

End CacheFacts.

Lemma stale_read_answers_from_store_witness :
  fst (get_curation "111" "222" (Stocked.world 3600000001))
  = Ok (Some (jsonify (JList [JDict (cur_dict (Stocked.row 1 222 "first"));
                              JDict (cur_dict (Stocked.row 3 222 "second"))]))).
Proof.
  exact (@stale_read_answers_from_store Sample.collaborators
           (Stocked.world 3600000001) 0 "111" "222" 111 222
           eq_refl eq_refl eq_refl eq_refl).
Defined.

Lemma refresh_resets_staleness_witness :
  let w1 := snd (get_curation "111" "222" (Stocked.world 3600000001)) in
  last_updated w1 = Some 3600000002 /\
  refreshes (get_curation "111" "333") w1 = 0%nat.
Proof.
  apply (@refresh_resets_staleness Sample.collaborators
           (Stocked.world 3600000001) 0 "111" "222" "111" "333" eq_refl eq_refl).
  unfold Z.le. vm_compute. discriminate.
Defined.

Lemma fresh_read_answer_witness :
  fst (get_curation "111" "222" (Stocked.world 10)) = Ok (Some (jsonify (JList []))).
Proof.
  assert (Hfresh : clock (Stocked.world 10) (ticks (Stocked.world 10)) - 0 <= one_hour)
    by (unfold Z.le; vm_compute; discriminate).
  exact (proj2 (@fresh_read_answer Sample.collaborators (Stocked.world 10) 0
                  "111" "222" 111 222 eq_refl Hfresh eq_refl eq_refl) eq_refl).
Defined.

Lemma get_curation_bad_segment_witness :
  fst (get_curation "abc" "222" (Stocked.world 3600000001)) = Raise ValueError /\
  refreshes (get_curation "abc" "222") (Stocked.world 3600000001) = 1%nat.
Proof.
  exact (@get_curation_bad_segment Sample.collaborators
           (Stocked.world 3600000001) 0 "abc" "222" eq_refl (or_introl eq_refl)).
Defined.

Lemma get_curation_list_items_witness :
  let w := snd (update_curations (Stocked.world 0)) in
  exists items,
    fst (get_curation_list w) = Ok (Some (jsonify (JList items))) /\
    length items = 2%nat /\
    curation_item (111, 333) [cur_dict (Stocked.row 2 333 "other")] ∈ items.
Proof.
  intros w.
  assert (Hfresh : clock w (ticks w) - 0 <= one_hour)
    by (unfold Z.le; vm_compute; discriminate).
  destruct (@get_curation_list_items Sample.collaborators w 0 eq_refl Hfresh)
    as (items & Hget & Hlen & Hitems).
  exists items. split; [exact Hget|]. split.
  - rewrite Hlen. vm_compute. reflexivity.
  - apply Hitems. exists (111, 333), [cur_dict (Stocked.row 2 333 "other")].
    split; [|reflexivity].
    reflexivity.
Defined.

Lemma submit_touches_one_key_witness :
  let w := snd (update_curations (Stocked.world 0)) in
  let w' := snd (submit_curation_to_db (Sample.submission 111 222) w) in
  cache w' !! (111, 333) = cache w !! (111, 333) /\
  last_updated w' = last_updated w /\
  local_entry (Sample.submission 111 222) 4 (Some "demo")
              (Some "curator@example.org") 1 !! "comment"
    = Some (JStr "wrong agent").
Proof.
  intros w w'.
  destruct (@submit_touches_one_key Sample.collaborators
              (Sample.submission 111 222) w 111 222 4 eq_refl eq_refl eq_refl)
    as (Hother & Hlu & _ & _ & Hfields).
  split; [apply Hother; discriminate|]. split; [exact Hlu|].
  apply (Hfields "comment").
  intros Hin. repeat (apply elem_of_cons in Hin as [Hin|Hin]; [discriminate|]).
  now apply elem_of_nil in Hin.
Defined.

Lemma submit_rejects_unreadable_hashes_witness :
  let w := Stocked.world 0 in
  submit_curation_to_db (Sample.request false false) w = (Raise TypeError, w).
Proof.
  intros w.
  exact (proj1 (@submit_rejects_unreadable_hashes Sample.collaborators
                  (Sample.request false false) w) eq_refl).
Defined.

(** ** Empty listings and the order of equal statements *)

Section MoreListing.
Context `{Collaborators}.

(** X10: [GET /list] returns the empty list exactly when no candidate of the
    working root ends in '.html' or '.pkl': an empty root, or a root that
    holds rendered '.json' artifacts only, lists nothing, without error. *)
Theorem list_names_empty w wd candidates :
  WORKING_DIR w = Some wd ->
  fst (_list_files "" w) = Ok candidates ->
  list_names w = (Ok (Some (jsonify (JList []))), w) <->
  forall o, o ∈ candidates ->
            PyStr.endswith o ".html" = false /\ PyStr.endswith o ".pkl" = false.
Proof.
  intros Hwd Hls. rewrite (list_names_run w wd candidates Hwd Hls).
  set (names := foldl (add_option wd) (∅ : gset string) candidates).
  assert (Hnames : forall n, n ∈ names <->
                     exists o, o ∈ candidates /\ derives wd o n).
  { intros n. subst names. rewrite foldl_add_option_elem.
    split; [intros [Hn|Hn]; [now apply not_elem_of_empty in Hn | exact Hn]
           | now right]. }
  split.
  - intros [= Hnil]. apply fmap_nil_inv in Hnil.
    intros o Ho.
    assert (Hno : forall ending, ending ∈ [".html"; ".pkl"] ->
                                 PyStr.endswith o ending = false).
    { intros ending Hend.
      destruct (PyStr.endswith o ending) eqn:E; [|reflexivity].
      assert (Hin : logical_name wd o ending ∈ elements names).
      { apply elem_of_elements, Hnames. exists o. split; [exact Ho|].
        exists ending. now repeat split. }
      rewrite Hnil in Hin. now apply elem_of_nil in Hin. }
    split; apply Hno; [apply list_elem_of_here
                      | apply list_elem_of_further, list_elem_of_here].
  - intros Hall.
    assert (Hempty : elements names = []).
    { apply elem_of_nil_inv. intros n Hn.
      apply elem_of_elements, Hnames in Hn as (o & Ho & ending & Hend & He & _).
      destruct (Hall o Ho) as [Hh Hp].
      apply elem_of_cons in Hend as [->|Hend]; [congruence|].
      apply list_elem_of_singleton in Hend as ->. congruence. }
    now rewrite Hempty.
Qed.


End MoreListing.

Lemma list_names_empty_witness :
  let w := Sample.local_world [("d/a.json", "json:flat")] (Some 0) 0 in
  list_names w = (Ok (Some (jsonify (JList []))), w).
Proof.
  intros w.
  apply (proj2 (@list_names_empty Sample.collaborators w "d/" ["d/a.json"]
                  eq_refl eq_refl)).
  intros o Ho. apply list_elem_of_singleton in Ho as ->. split; reflexivity.
Defined.

